(** * Parking price service (app.py): pricing engine, tariff store,
      response extractor and request handler.

    The Python program is embedded shallowly.  Values decoded from JSON are
    the inductive type [json]; a Python [dict] with string keys is a
    [gmap string json]; an operation that can raise returns a [result];
    Python [str] is [string], read as a sequence of code points below 256.
    Python numbers are [num]: an [int] is a [Z], a [float] is the exact
    rational it denotes ([Q], compared with [==]), so float arithmetic is
    exact in this model and the non-finite floats are not represented. *)

From Stdlib Require Import ZArith QArith Qround Lqa Lia String Ascii Bool.
From stdpp Require Import base gmap strings list pretty.

Local Open Scope string_scope.
Local Open Scope Z_scope.

(** ** Python values *)

Inductive num :=
| NInt (z : Z)
| NFloat (q : Q).

#[warnings="-register-all"]
Inductive json :=
| JNull
| JBool (b : bool)
| JNum (n : num)
| JStr (s : string)
| JArr (l : list json)
| JObj (m : gmap string json).

(** Exceptions, all of them subclasses of [Exception].  [KeyError] keeps
    the key: its text is [repr(key)].  The texts of the errors the
    interpreter raises follow CPython 3.11; no statement below depends on
    their wording.  [OtherError] is any other exception, such as a failure
    of the provider, with its class name and its text. *)
Inductive exn :=
| KeyError (key : json)
| IndexError (msg : string)
| TypeError (msg : string)
| AttributeError (msg : string)
| ValueError (msg : string)
| OtherError (cls msg : string).

Inductive result (A : Type) :=
| Ok (a : A)
| Raise (e : exn).
Arguments Ok {A} a.
Arguments Raise {A} e.

Definition bind {A B} (r : result A) (k : A → result B) : result B :=
  match r with
  | Ok a => k a
  | Raise e => Raise e
  end.

Notation "x ←! r ; k" := (bind r (fun x => k))
  (at level 20, r at level 100, k at level 200, right associativity,
   format "x  ←!  r ;  '/' k").

(** [try: r except Exception as e: h e] *)
Definition try_except {A} (r : result A) (h : exn → result A) : result A :=
  match r with
  | Ok a => Ok a
  | Raise e => h e
  end.

Definition num_Q (n : num) : Q :=
  match n with
  | NInt z => inject_Z z
  | NFloat q => q
  end.

(** [bool(v)] *)
Definition truthy (v : json) : bool :=
  match v with
  | JNull => false
  | JBool b => b
  | JNum n => negb (Qeq_bool (num_Q n) 0)
  | JStr s => negb (String.eqb s "")
  | JArr l => negb (bool_decide (l = []))
  | JObj m => negb (bool_decide (dom m = ∅))
  end.

(** [type(v).__name__] *)
Definition type_name (v : json) : string :=
  match v with
  | JNull => "NoneType"
  | JBool _ => "bool"
  | JNum (NInt _) => "int"
  | JNum (NFloat _) => "float"
  | JStr _ => "str"
  | JArr _ => "list"
  | JObj _ => "dict"
  end.

(** A value usable as a number: [bool] is a subclass of [int]. *)
Definition as_num (v : json) : option num :=
  match v with
  | JNum n => Some n
  | JBool b => Some (NInt (if b then 1 else 0))
  | _ => None
  end.

(** The index of a sequence subscript: an [int] (or [bool]). *)
Definition as_index (v : json) : option Z :=
  match v with
  | JNum (NInt z) => Some z
  | JBool b => Some (if b then 1 else 0)
  | _ => None
  end.

(** [seq[i]] with Python's wrap-around of negative indices. *)
Definition seq_index {A} (l : list A) (i : Z) : option A :=
  let n := Z.of_nat (length l) in
  let j := if i <? 0 then i + n else i in
  if (0 <=? j) && (j <? n) then l !! Z.to_nat j else None.

(** [container[key]] *)
Definition getitem (container key : json) : result json :=
  match container with
  | JObj m =>
      match key with
      | JStr k =>
          match m !! k with
          | Some v => Ok v
          | None => Raise (KeyError key)
          end
      | JArr _ | JObj _ =>
          Raise (TypeError ("unhashable type: '" ++ type_name key ++ "'"))
      | _ => Raise (KeyError key)
      end
  | JArr l =>
      match as_index key with
      | Some i =>
          match seq_index l i with
          | Some v => Ok v
          | None => Raise (IndexError "list index out of range")
          end
      | None =>
          Raise (TypeError ("list indices must be integers or slices, not "
                            ++ type_name key))
      end
  | JStr s =>
      match as_index key with
      | Some i =>
          match seq_index (list_ascii_of_string s) i with
          | Some c => Ok (JStr (String c ""))
          | None => Raise (IndexError "string index out of range")
          end
      | None =>
          Raise (TypeError ("string indices must be integers, not '"
                            ++ type_name key ++ "'"))
      end
  | _ => Raise (TypeError ("'" ++ type_name container
                           ++ "' object is not subscriptable"))
  end.

(** [d.get(key, default)]; only a dict has the method. *)
Definition dict_get (d : json) (key : string) (dflt : json) : result json :=
  match d with
  | JObj m => Ok (default dflt (m !! key))
  | _ => Raise (AttributeError ("'" ++ type_name d
                                ++ "' object has no attribute 'get'"))
  end.

(** [a == b] against a string literal: true only for that very string. *)
Definition eq_str (v : json) (s : string) : bool :=
  match v with
  | JStr s' => String.eqb s' s
  | _ => false
  end.

(** ** Numbers *)

(** [int(x)] of a float: truncation toward zero. *)
Definition py_int (q : Q) : Z := Z.quot (Qnum q) (Z.pos (Qden q)).

(** [x <= v] for a float [x]. *)
Definition py_le (x : Q) (v : json) : result bool :=
  match as_num v with
  | Some n => Ok (Qle_bool x (num_Q n))
  | None => Raise (TypeError ("'<=' not supported between instances of 'float' and '"
                              ++ type_name v ++ "'"))
  end.

(** [a * v]: int times int is an int, anything else a float.  A factor that
    is not a number makes CPython end the pricing expression in a
    [TypeError] (at this operation or, for a sequence repeated by an int, at
    a later one); the model raises it here. *)
Definition py_mul (a : num) (v : json) : result num :=
  match as_num v with
  | Some b =>
      Ok match a, b with
         | NInt x, NInt y => NInt (x * y)
         | _, _ => NFloat (num_Q a * num_Q b)
         end
  | None => Raise (TypeError ("unsupported operand type(s) for *: '"
                              ++ type_name (JNum a) ++ "' and '"
                              ++ type_name v ++ "'"))
  end.

(** [min(a, v)]: the first argument unless the second is smaller. *)
Definition py_min (a : num) (v : json) : result num :=
  match as_num v with
  | Some b => Ok (if Qle_bool (num_Q a) (num_Q b) then a else b)
  | None => Raise (TypeError ("'<' not supported between instances of '"
                              ++ type_name v ++ "' and '"
                              ++ type_name (JNum a) ++ "'"))
  end.

(** Rounding to the nearest integer, ties to even. *)
Definition round_half_even (q : Q) : Z :=
  let f := Qfloor q in
  match (q - inject_Z f ?= 1 # 2)%Q with
  | Lt => f
  | Gt => f + 1
  | Eq => if Z.even f then f else f + 1
  end.

(** [round(x, 2)]: an int is returned unchanged, a float is rounded to the
    nearest multiple of 0.01. *)
Definition py_round2 (n : num) : num :=
  match n with
  | NInt z => NInt z
  | NFloat q => NFloat (inject_Z (round_half_even (q * 100)) / 100)
  end.

(** ** datetime and timedelta *)

Record datetime := {
  year : Z; month : Z; day : Z;
  hour : Z; minute : Z; second : Z; microsecond : Z;
  utcoffset : option Z   (* microseconds east of UTC; None for a naive value *)
}.

Record timedelta := { days : Z; seconds : Z; microseconds : Z }.

Definition is_leap (y : Z) : bool :=
  (y mod 4 =? 0) && (negb (y mod 100 =? 0) || (y mod 400 =? 0)).

Definition days_before_year (y : Z) : Z :=
  let y := y - 1 in y * 365 + y / 4 - y / 100 + y / 400.

Definition days_before_month (y m : Z) : Z :=
  nth (Z.to_nat m) [-1; 0; 31; 59; 90; 120; 151; 181; 212; 243; 273; 304; 334] 0
  + (if (2 <? m) && is_leap y then 1 else 0).

Definition toordinal (d : datetime) : Z :=
  days_before_year (year d) + days_before_month (year d) (month d) + day d.

(** Monday is 0, Sunday is 6. *)
Definition weekday (d : datetime) : Z := (toordinal d + 6) mod 7.

(** The normal form the [timedelta] constructor keeps:
    0 <= seconds < 86400 and 0 <= microseconds < 10^6. *)
Definition timedelta_of_us (t : Z) : timedelta :=
  {| days := t / 86400000000;
     seconds := (t / 1000000) mod 86400;
     microseconds := t mod 1000000 |}.

Definition mk_timedelta (d s us : Z) : timedelta :=
  timedelta_of_us ((d * 86400 + s) * 1000000 + us).

Definition timedelta_us (td : timedelta) : Z :=
  (days td * 86400 + seconds td) * 1000000 + microseconds td.

Definition total_seconds (td : timedelta) : Q :=
  (inject_Z (timedelta_us td) / 1000000)%Q.

(** [a - b] on datetimes. *)
Definition datetime_sub (a b : datetime) : result timedelta :=
  let secs (d : datetime) := second d + minute d * 60 + hour d * 3600 in
  let base := mk_timedelta (toordinal a - toordinal b) (secs a - secs b)
                           (microsecond a - microsecond b) in
  match utcoffset a, utcoffset b with
  | None, None => Ok base
  | Some myoff, Some otoff =>
      Ok (timedelta_of_us (timedelta_us base + otoff - myoff))
  | _, _ => Raise (TypeError "can't subtract offset-naive and offset-aware datetimes")
  end.

(** ** Pricing engine *)

Definition compute_price (start_dt end_dt : datetime) (tariff : json) : result num :=
  duration ←! datetime_sub end_dt start_dt;
  let total_minutes := (total_seconds duration / 60)%Q in
  grace ←! dict_get tariff "grace_minutes" (JNum (NInt 0));
  in_grace ←! py_le total_minutes grace;
  if in_grace then Ok (NInt 0)
  else
    let hours := (total_minutes / 60)%Q in
    rule ←! dict_get tariff "rounding_rule" JNull;
    let billable_hours :=
      if eq_str rule "ceil_to_next_hour"
      then (if Qeq_bool hours (inject_Z (py_int hours))
            then NInt (py_int hours) else NInt (py_int hours + 1))
      else NFloat hours in
    let weekend := (5 <=? weekday start_dt) || (5 <=? weekday end_dt) in
    multiplier ←! (if weekend then dict_get tariff "weekend_multiplier" (JNum (NFloat 1))
                   else Ok (JNum (NFloat 1)));
    rate ←! getitem tariff (JStr "hourly_rate");
    price ←! py_mul billable_hours rate;
    price ←! py_mul price multiplier;
    cap ←! getitem tariff (JStr "daily_cap");
    price ←! py_min price cap;
    Ok (py_round2 price).

(** *** Named parts of [compute_price], for the statements below *)

(** Lines 70-74, the [ceil_to_next_hour] branch. *)
Definition ceil_to_next_hour (hours : Q) : Z :=
  if Qeq_bool hours (inject_Z (py_int hours))
  then py_int hours else py_int hours + 1.

Definition billable_hours (t : gmap string json) (hours : Q) : num :=
  if eq_str (default JNull (t !! "rounding_rule")) "ceil_to_next_hour"
  then NInt (ceil_to_next_hour hours) else NFloat hours.

(** Lines 79-81 for given billable hours and multiplier. *)
Definition price_with (t : gmap string json) (billable : num) (multiplier : json)
  : result num :=
  rate ←! getitem (JObj t) (JStr "hourly_rate");
  price ←! py_mul billable rate;
  price ←! py_mul price multiplier;
  cap ←! getitem (JObj t) (JStr "daily_cap");
  price ←! py_min price cap;
  Ok (py_round2 price).

(** [tariff.get("grace_minutes", 0)] and [tariff.get("weekend_multiplier", 1.0)] *)
Definition grace_minutes (t : gmap string json) : json :=
  default (JNum (NInt 0)) (t !! "grace_minutes").

Definition weekend_multiplier (t : gmap string json) : json :=
  default (JNum (NFloat 1)) (t !! "weekend_multiplier").

(** Saturday is weekday 5 and Sunday is weekday 6. *)
Definition is_saturday_or_sunday (d : datetime) : Prop :=
  weekday d = 5 ∨ weekday d = 6.

Definition total_minutes (td : timedelta) : Q := (total_seconds td / 60)%Q.
Definition total_hours (td : timedelta) : Q := (total_minutes td / 60)%Q.

(** ** Text operations of [str] *)

Definition nl : string := String (ascii_of_nat 10) "".

(** [c.isspace()] for a code point below 256 *)
Definition isspace (c : ascii) : bool :=
  let n := N_of_ascii c in
  (((9 <=? n) && (n <=? 13)) || ((28 <=? n) && (n <=? 32))
   || (n =? 133) || (n =? 160))%N.

Fixpoint lstrip (s : string) : string :=
  match s with
  | EmptyString => EmptyString
  | String c s' => if isspace c then lstrip s' else s
  end.

Fixpoint rstrip (s : string) : string :=
  match s with
  | EmptyString => EmptyString
  | String c s' =>
      match rstrip s' with
      | EmptyString => if isspace c then EmptyString else String c EmptyString
      | r => String c r
      end
  end.

(** [s.strip()] *)
Definition strip (s : string) : string := rstrip (lstrip s).

(** [s.startswith(p)] *)
Definition startswith (s p : string) : bool := String.prefix p s.

Fixpoint drop_str (n : nat) (s : string) : string :=
  match n, s with
  | O, _ => s
  | S n, String _ s' => drop_str n s'
  | S _, EmptyString => EmptyString
  end.

Fixpoint take_str (n : nat) (s : string) : string :=
  match n, s with
  | O, _ => EmptyString
  | S n, String c s' => String c (take_str n s')
  | S _, EmptyString => EmptyString
  end.

(** A slice bound: negative bounds count from the end, and all are clipped. *)
Definition slice_bound (s : string) (i : Z) : nat :=
  Z.to_nat (if i <? 0 then Z.max 0 (i + Z.of_nat (String.length s)) else i).

(** [s[i:]] and [s[:i]] *)
Definition slice_from (s : string) (i : Z) : string := drop_str (slice_bound s i) s.
Definition slice_to (s : string) (i : Z) : string := take_str (slice_bound s i) s.

(** [s.find(c)]: lowest index of [c], or -1. *)
Fixpoint find (s : string) (c : ascii) : Z :=
  match s with
  | EmptyString => -1
  | String a s' =>
      if Ascii.eqb a c then 0
      else let r := find s' c in if r =? -1 then -1 else r + 1
  end.

(** [s.rfind(c)]: highest index of [c], or -1. *)
Fixpoint rfind (s : string) (c : ascii) : Z :=
  match s with
  | EmptyString => -1
  | String a s' =>
      let r := rfind s' c in
      if r =? -1 then (if Ascii.eqb a c then 0 else -1) else r + 1
  end.

(** Steps 2 and 3 of the extractor: the fence markers at the head. *)
Definition without_fence (text : string) : string :=
  let text := if startswith text "```json" then slice_from text 7 else text in
  if startswith text "```" then slice_from text 3 else text.

(** Steps 4 and 5: from the first opening to the last closing brace. *)
Definition brace_span (text : string) : string :=
  let json_start := find text "{" in
  let text := if negb (json_start =? -1) then slice_from text json_start else text in
  let json_end := rfind text "}" in
  if negb (json_end =? -1) then slice_to text (json_end + 1) else text.

(** Steps 1-5: the text handed to the JSON parser. *)
Definition json_text (gemini_response : string) : string :=
  brace_span (without_fence (strip gemini_response)).

(** The payload wrapped in a fenced JSON code block. *)
Definition fenced (payload : string) : string :=
  "```json" ++ nl ++ payload ++ nl ++ "```".

Record response := { status : Z; body : json }.

(** [jsonify(v), code] *)
Definition jsonify (v : json) (code : Z) : response := {| status := code; body := v |}.

(** ** The service *)

Section Service.

(** The tariff table read from tariffs.json at startup. *)
Variable TARIFFS : json.
(** Python's [repr] on decoded JSON values. *)
Variable repr : json → string.
(** [json.loads] *)
Variable loads : string → result json.
(** [GenerativeModel("gemini-2.5-flash").generate_content(prompt).text] *)
Variable generate_content : string → result string.
(** [datetime.fromisoformat] on a [str] *)
Variable fromisoformat : string → result datetime.

(** [str(e)] *)
Definition py_str (e : exn) : string :=
  match e with
  | KeyError k => repr k
  | IndexError m | TypeError m | AttributeError m | ValueError m => m
  | OtherError _ m => m
  end.

(** A value interpolated into an f-string: [str(v)]. *)
Definition fmt (v : json) : string :=
  match v with
  | JStr s => s
  | _ => repr v
  end.

Definition call_gemini (system_prompt user_prompt : string) : result string :=
  let prompt := system_prompt ++ nl ++ user_prompt in
  generate_content prompt.

Definition parse_gemini_json (gemini_response : string) : result json :=
  try_except
    (let text := strip gemini_response in
     let text := if startswith text "```json" then slice_from text 7 else text in
     let text := if startswith text "```" then slice_from text 3 else text in
     let json_start := find text "{" in
     let text := if negb (json_start =? -1) then slice_from text json_start else text in
     let json_end := rfind text "}" in
     let text := if negb (json_end =? -1) then slice_to text (json_end + 1) else text in
     loads text)
    (fun e => Raise (ValueError ("Failed to parse Gemini JSON: " ++ py_str e))).

Definition get_tariff (state area vehicle_type : json) : result json :=
  match (by_state ←! getitem TARIFFS state;
         by_area ←! getitem by_state area;
         getitem by_area vehicle_type) with
  | Raise (KeyError _) => Ok JNull
  | r => r
  end.

Definition datetime_fromisoformat (v : json) : result datetime :=
  match v with
  | JStr s => fromisoformat s
  | _ => Raise (TypeError "fromisoformat: argument must be str")
  end.

Definition system_prompt : string :=
  "You extract and validate inputs for a parking tariff calculator. "
  ++ "Respond ONLY with valid JSON, starting with '{' and matching this schema: "
  ++ "{'inputs': {'start_datetime': str, 'end_datetime': str, 'area': str, 'state': str, 'vehicle_type': str}, "
  ++ "'validation': {'is_valid': bool, 'errors': list}}. "
  ++ "Do not include any text, explanation, or code block formatting. Do not compute prices.".

Definition error_body (v : json) : json := JObj {[ "error" := v ]}.

(** Lines 103-124, the body of the [try] block. *)
Definition handle (system_prompt user_prompt : string) : result response :=
  gemini_response ←! call_gemini system_prompt user_prompt;
  parsed ←! parse_gemini_json gemini_response;
  validation ←! getitem parsed (JStr "validation");
  is_valid ←! getitem validation (JStr "is_valid");
  if negb (truthy is_valid) then
    validation ←! getitem parsed (JStr "validation");
    errors ←! getitem validation (JStr "errors");
    Ok (jsonify (error_body errors) 400)
  else
    inputs ←! getitem parsed (JStr "inputs");
    start_datetime ←! getitem inputs (JStr "start_datetime");
    start_dt ←! datetime_fromisoformat start_datetime;
    inputs ←! getitem parsed (JStr "inputs");
    end_datetime ←! getitem inputs (JStr "end_datetime");
    end_dt ←! datetime_fromisoformat end_datetime;
    inputs ←! getitem parsed (JStr "inputs");
    state ←! getitem inputs (JStr "state");
    inputs ←! getitem parsed (JStr "inputs");
    area ←! getitem inputs (JStr "area");
    inputs ←! getitem parsed (JStr "inputs");
    vehicle_type ←! getitem inputs (JStr "vehicle_type");
    tariff ←! get_tariff state area vehicle_type;
    if negb (truthy tariff) then
      Ok (jsonify (error_body (JStr ("No tariff found for " ++ fmt state ++ " / "
                                     ++ fmt area ++ " / " ++ fmt vehicle_type)))
                  400)
    else
      price ←! compute_price start_dt end_dt tariff;
      inputs ←! getitem parsed (JStr "inputs");
      Ok (jsonify (JObj (<["inputs" := inputs]>
                        (<["tariff" := tariff]>
                        (<["price" := JNum price]> ∅)))) 200).

(** Lines 86-93: the user prompt, built from the request body. *)
Definition build_user_prompt (data : json) : result string :=
  start_date ←! getitem data (JStr "start_date");
  start_time ←! getitem data (JStr "start_time");
  end_date ←! getitem data (JStr "end_date");
  end_time ←! getitem data (JStr "end_time");
  area ←! getitem data (JStr "area");
  state ←! getitem data (JStr "state");
  vehicle_type ←! getitem data (JStr "vehicle_type");
  Ok ("Start date: " ++ fmt start_date ++ ", start time: " ++ fmt start_time ++ ", "
      ++ "end date: " ++ fmt end_date ++ ", end time: " ++ fmt end_time ++ ", "
      ++ "area: " ++ fmt area ++ ", state: " ++ fmt state
      ++ ", vehicle: " ++ fmt vehicle_type ++ "."
      ++ " Extract and validate these inputs for a parking tariff calculator. "
      ++ "Return ONLY JSON with: normalized ISO-8601 datetimes, area, state, vehicle_type, "
      ++ "and any validation errors. Do not compute prices.").

(** The view function on the decoded request body.  [Raise] is an
    exception that leaves the function: the prompt is built before the
    [try] block is entered. *)
Definition predict_parking_price (data : json) : result response :=
  user_prompt ←! build_user_prompt data;
  try_except (handle system_prompt user_prompt)
             (fun e => Ok (jsonify (error_body (JStr (py_str e))) 500)).

End Service.

(** ** A model of [json.loads]

    The decoder follows CPython's [json.decoder] and [json.scanner]: the
    same grammar, the same error messages and positions.  Two things lie
    outside the model and are reported as a failure of their own: an
    escape [\uXXXX] above code point 255 and the constants [NaN],
    [Infinity] and [-Infinity].  A float literal denotes its exact decimal
    value.  The service itself takes its parser as a parameter [loads];
    this decoder says which texts are valid JSON and is the parser where a
    statement is evaluated on a concrete text. *)

Inductive scan (A : Type) :=
| Scanned (a : A) (rest : string) (idx : nat)
| Failed (msg : string) (pos : nat).
Arguments Scanned {A} a rest idx.
Arguments Failed {A} msg pos.

Definition dquote : ascii := ascii_of_nat 34.

Definition is_json_ws (c : ascii) : bool :=
  let n := N_of_ascii c in ((n =? 32) || (n =? 9) || (n =? 10) || (n =? 13))%N.

Fixpoint skip_ws (s : string) (i : nat) : string * nat :=
  match s with
  | String c r => if is_json_ws c then skip_ws r (S i) else (s, i)
  | EmptyString => (s, i)
  end.

Definition digit_of (c : ascii) : option Z :=
  let n := Z.of_N (N_of_ascii c) in
  if (48 <=? n) && (n <=? 57) then Some (n - 48) else None.

Definition hex_of (c : ascii) : option Z :=
  let n := Z.of_N (N_of_ascii c) in
  if (48 <=? n) && (n <=? 57) then Some (n - 48)
  else if (65 <=? n) && (n <=? 70) then Some (n - 55)
  else if (97 <=? n) && (n <=? 102) then Some (n - 87)
  else None.

(** The digits at the head of [s]: their value after [acc], how many, the rest. *)
Fixpoint scan_digits (s : string) (acc : Z) (n : nat) : Z * nat * string :=
  match s with
  | String c r =>
      match digit_of c with
      | Some d => scan_digits r (acc * 10 + d) (S n)
      | None => (acc, n, s)
      end
  | EmptyString => (acc, n, s)
  end.

Definition starts_with_digit (s : string) : bool :=
  match s with
  | String c _ => bool_decide (is_Some (digit_of c))
  | EmptyString => false
  end.

(** An optional minus sign. *)
Definition scan_minus (s : string) : bool * string :=
  match s with
  | String c r => if Ascii.eqb c "-" then (true, r) else (false, s)
  | EmptyString => (false, s)
  end.

(** The integer part [0|[1-9][0-9]*]: its value, its length, the rest. *)
Definition scan_int (s : string) : option (Z * nat * string) :=
  match s with
  | String c r =>
      if Ascii.eqb c "0" then Some (0, 1%nat, r)
      else if starts_with_digit s then Some (scan_digits s 0 0)
      else None
  | EmptyString => None
  end.

(** The fraction [\.[0-9]+], if there is one: its digits as a number and
    how many they are. *)
Definition scan_frac (s : string) : option (Z * nat) * string :=
  match s with
  | String c r =>
      if Ascii.eqb c "." && starts_with_digit r
      then let '(v, k, rest) := scan_digits r 0 0 in (Some (v, k), rest)
      else (None, s)
  | EmptyString => (None, s)
  end.

(** The exponent [[eE][-+]?[0-9]+], if there is one: its value and length. *)
Definition scan_exp (s : string) : option (Z * nat) * string :=
  match s with
  | String e r =>
      if Ascii.eqb e "e" || Ascii.eqb e "E" then
        let '(eneg, r1, ke) :=
          match r with
          | String c r' =>
              if Ascii.eqb c "-" then (true, r', 2%nat)
              else if Ascii.eqb c "+" then (false, r', 2%nat)
              else (false, r, 1%nat)
          | EmptyString => (false, r, 1%nat)
          end in
        if starts_with_digit r1 then
          let '(ev, kd, rest) := scan_digits r1 0 0 in
          (Some (if eneg then - ev else ev, (ke + kd)%nat), rest)
        else (None, s)
      else (None, s)
  | EmptyString => (None, s)
  end.

(** [NUMBER_RE.match]: the number at the head of [s], its length, the rest.
    Without fraction and exponent it is an int, otherwise a float. *)
Definition match_number (s : string) : option (num * nat * string) :=
  let '(neg, s1) := scan_minus s in
  match scan_int s1 with
  | None => None
  | Some (ip, k1, s2) =>
      let '(frac, s3) := scan_frac s2 in
      let '(exp, s4) := scan_exp s3 in
      let k0 := if neg then 1%nat else 0%nat in
      let kf := match frac with Some (_, kf) => S kf | None => 0%nat end in
      let kx := match exp with Some (_, kx) => kx | None => 0%nat end in
      let len := (k0 + k1 + kf + kx)%nat in
      match frac, exp with
      | None, None => Some (NInt (if neg then - ip else ip), len, s4)
      | _, _ =>
          let fq := match frac with
                    | Some (fv, fk) => (inject_Z fv / inject_Z (10 ^ Z.of_nat fk))%Q
                    | None => 0%Q
                    end in
          let ex := match exp with Some (ev, _) => ev | None => 0 end in
          let q := ((inject_Z ip + fq) * Qpower 10 ex)%Q in
          Some (NFloat (Qred (if neg then - q else q)%Q), len, s4)
      end
  end.

Definition unescape (c : ascii) : option ascii :=
  if Ascii.eqb c dquote then Some dquote
  else if Ascii.eqb c "\" then Some "\"%char
  else if Ascii.eqb c "/" then Some "/"%char
  else if Ascii.eqb c "b" then Some (ascii_of_nat 8)
  else if Ascii.eqb c "f" then Some (ascii_of_nat 12)
  else if Ascii.eqb c "n" then Some (ascii_of_nat 10)
  else if Ascii.eqb c "r" then Some (ascii_of_nat 13)
  else if Ascii.eqb c "t" then Some (ascii_of_nat 9)
  else None.

Definition hex4 (a b c d : ascii) : option Z :=
  match hex_of a, hex_of b, hex_of c, hex_of d with
  | Some x, Some y, Some z, Some w => Some (((x * 16 + y) * 16 + z) * 16 + w)
  | _, _, _, _ => None
  end.

(** [scanstring]: [s] is the text after the opening quote, which is at [start]. *)
Fixpoint scanstring (s : string) (i start : nat) : scan string :=
  let cons c r :=
    match r with
    | Scanned k rest j => Scanned (String c k) rest j
    | Failed m p => Failed m p
    end in
  match s with
  | EmptyString => Failed "Unterminated string starting at" start
  | String c s' =>
      if Ascii.eqb c dquote then Scanned "" s' (S i)
      else if Ascii.eqb c "\" then
        match s' with
        | EmptyString => Failed "Unterminated string starting at" start
        | String e s'' =>
            if Ascii.eqb e "u" then
              match s'' with
              | String h1 (String h2 (String h3 (String h4 (String c5 _ as r)))) =>
                  match hex4 h1 h2 h3 h4 with
                  | Some code =>
                      if code <? 256
                      then cons (ascii_of_N (Z.to_N code)) (scanstring r (i + 6) start)
                      else Failed "code point above 255 (outside this model)" (S i)
                  | None => Failed "Invalid \uXXXX escape" (S i)
                  end
              | _ => Failed "Invalid \uXXXX escape" (S i)
              end
            else
              match unescape e with
              | Some ch => cons ch (scanstring s'' (i + 2) start)
              | None => Failed "Invalid \escape" i
              end
        end
      else if (N_of_ascii c <=? 31)%N then Failed "Invalid control character at" i
      else cons c (scanstring s' (S i) start)
  end.

(** The character at the head of [s], if any. *)
Definition head_is (s : string) (c : ascii) : bool :=
  match s with
  | String a _ => Ascii.eqb a c
  | EmptyString => false
  end.

Fixpoint scan_once (fuel : nat) (s : string) (i : nat) {struct fuel} : scan json :=
  match fuel with
  | O => Failed "maximum recursion depth exceeded" i
  | S fuel =>
      match s with
      | EmptyString => Failed "Expecting value" i
      | String c r =>
          if Ascii.eqb c dquote then
            match scanstring r (S i) i with
            | Scanned k rest j => Scanned (JStr k) rest j
            | Failed m p => Failed m p
            end
          else if Ascii.eqb c "{" then
            let '(s1, i1) := skip_ws r (S i) in
            if head_is s1 "}" then Scanned (JObj ∅) (drop_str 1 s1) (S i1)
            else if head_is s1 dquote then object_items fuel ∅ (drop_str 1 s1) (S i1)
            else Failed "Expecting property name enclosed in double quotes" i1
          else if Ascii.eqb c "[" then
            let '(s1, i1) := skip_ws r (S i) in
            if head_is s1 "]" then Scanned (JArr []) (drop_str 1 s1) (S i1)
            else array_items fuel [] s1 i1
          else if String.prefix "null" s then Scanned JNull (drop_str 4 s) (i + 4)
          else if String.prefix "true" s then Scanned (JBool true) (drop_str 4 s) (i + 4)
          else if String.prefix "false" s then Scanned (JBool false) (drop_str 5 s) (i + 5)
          else
            match match_number s with
            | Some (n, k, rest) => Scanned (JNum n) rest (i + k)
            | None =>
                if String.prefix "NaN" s || String.prefix "Infinity" s
                   || String.prefix "-Infinity" s
                then Failed "non-finite float (outside this model)" i
                else Failed "Expecting value" i
            end
      end
  end

(** The loop of [JSONObject]; [s] is the text after the opening quote of a key. *)
with object_items (fuel : nat) (acc : gmap string json) (s : string) (i : nat)
       {struct fuel} : scan json :=
  match fuel with
  | O => Failed "maximum recursion depth exceeded" i
  | S fuel =>
      match scanstring s i (pred i) with
      | Failed m p => Failed m p
      | Scanned key s1 i1 =>
          let '(s2, i2) := skip_ws s1 i1 in
          if head_is s2 ":" then
            let '(s3, i3) := skip_ws (drop_str 1 s2) (S i2) in
            match scan_once fuel s3 i3 with
            | Failed m p => Failed m p
            | Scanned value s4 i4 =>
                let acc := <[key := value]> acc in
                let '(s5, i5) := skip_ws s4 i4 in
                if head_is s5 "}" then Scanned (JObj acc) (drop_str 1 s5) (S i5)
                else if head_is s5 "," then
                  let '(s6, i6) := skip_ws (drop_str 1 s5) (S i5) in
                  if head_is s6 dquote then object_items fuel acc (drop_str 1 s6) (S i6)
                  else Failed "Expecting property name enclosed in double quotes" i6
                else Failed "Expecting ',' delimiter" i5
            end
          else Failed "Expecting ':' delimiter" i2
      end
  end

(** The loop of [JSONArray]; [s] starts at the next value. *)
with array_items (fuel : nat) (acc : list json) (s : string) (i : nat)
       {struct fuel} : scan json :=
  match fuel with
  | O => Failed "maximum recursion depth exceeded" i
  | S fuel =>
      match scan_once fuel s i with
      | Failed m p => Failed m p
      | Scanned value s1 i1 =>
          let acc := (acc ++ [value])%list in
          let '(s2, i2) := skip_ws s1 i1 in
          if head_is s2 "]" then Scanned (JArr acc) (drop_str 1 s2) (S i2)
          else if head_is s2 "," then
            let '(s3, i3) := skip_ws (drop_str 1 s2) (S i2) in array_items fuel acc s3 i3
          else Failed "Expecting ',' delimiter" i2
      end
  end.

(** [JSONDecodeError.__str__]: message, line, column and offset. *)
Definition errmsg (msg doc : string) (pos : nat) : string :=
  let fix lc (s : string) (n : nat) (line col : nat) : nat * nat :=
    match n, s with
    | S n, String c r =>
        if Ascii.eqb c (ascii_of_nat 10) then lc r n (S line) 1%nat
        else lc r n line (S col)
    | _, _ => (line, col)
    end in
  let '(line, col) := lc doc pos 1%nat 1%nat in
  msg ++ ": line " ++ pretty line ++ " column " ++ pretty col
      ++ " (char " ++ pretty pos ++ ")".

(** [json.loads(doc)] *)
Definition json_loads (doc : string) : result json :=
  let '(s0, i0) := skip_ws doc 0 in
  match scan_once (2 * String.length doc + 2) s0 i0 with
  | Failed m p => Raise (ValueError (errmsg m doc p))
  | Scanned v rest i =>
      let '(rest, i) := skip_ws rest i in
      match rest with
      | EmptyString => Ok v
      | String _ _ => Raise (ValueError (errmsg "Extra data" doc i))
      end
  end.

(** ** Vocabulary of the statements *)

(** Line 76-77: the multiplier the price is computed with. *)
Definition multiplier_for (start_dt end_dt : datetime) (t : gmap string json) : json :=
  if (5 <=? weekday start_dt) || (5 <=? weekday end_dt)
  then weekend_multiplier t else JNum (NFloat 1).




(** The duration exceeds the grace period: the check of line 67 is false. *)
Definition exceeds_grace (t : gmap string json) (d : timedelta) : Prop :=
  ∃ g, as_num (grace_minutes t) = Some g ∧ (num_Q g < total_minutes d)%Q.


(** ** Sample data *)

(** A naive datetime at a whole minute. *)
Definition naive (y m d hh mm : Z) : datetime :=
  {| year := y; month := m; day := d; hour := hh; minute := mm;
     second := 0; microsecond := 0; utcoffset := None |}.

Definition int (z : Z) : json := JNum (NInt z).

(** hourly_rate 2, daily_cap 20, grace_minutes 15, ceil_to_next_hour *)
Definition downtown_car : gmap string json :=
  list_to_map [("hourly_rate", int 2); ("daily_cap", int 20);
               ("grace_minutes", int 15);
               ("rounding_rule", JStr "ceil_to_next_hour")].

(** As [downtown_car], with weekend_multiplier 2. *)
Definition weekend_car : gmap string json :=
  <["weekend_multiplier" := int 2]> downtown_car.


(** A tariff whose daily cap is not a whole number of cents: 10.006. *)
Definition subcent_cap : gmap string json :=
  list_to_map [("hourly_rate", int 100); ("daily_cap", JNum (NFloat (10006 # 1000)))].

(** A tariff whose grace period is negative: -120 minutes. *)
Definition negative_grace : gmap string json :=
  list_to_map [("hourly_rate", int 2); ("daily_cap", int 20);
               ("grace_minutes", int (-120));
               ("rounding_rule", JStr "ceil_to_next_hour")].

Fixpoint all_space (s : string) : bool :=
  match s with
  | EmptyString => true
  | String c r => isspace c && all_space r
  end.

(** The text of a JSON object: a brace-delimited body, with optional
    whitespace around it. *)
Definition json_object_text (p : string) : Prop :=
  ∃ w1 body w2,
    all_space w1 = true ∧ all_space w2 = true
    ∧ p = w1 ++ "{" ++ body ++ "}" ++ w2.

(** [v[k]] where it exists: [v] is a dict and holds the key. *)
Definition lookup_key (v : json) (k : string) : option json :=
  match v with
  | JObj m => m !! k
  | _ => None
  end.

(** The entry of the tariff table under state, area and vehicle type. *)
Definition lookup_path (tariffs : json) (state area vehicle_type : string) : option json :=
  by_state ← lookup_key tariffs state;
  by_area ← lookup_key by_state area;
  lookup_key by_area vehicle_type.

(** The shape of the tariff table: state → area → vehicle type → rule. *)
Definition nested_mapping (tariffs : json) : Prop :=
  ∃ states, tariffs = JObj states
    ∧ ∀ s by_state, states !! s = Some by_state →
        ∃ areas, by_state = JObj areas
          ∧ ∀ a by_area, areas !! a = Some by_area → ∃ vehicles, by_area = JObj vehicles.

(** The request gets as far as the tariff lookup: the prompt is built, the
    provider answers, the answer parses, is valid, and holds the inputs. *)
Inductive reaches_lookup (repr : json → string) (loads : string → result json)
    (generate_content : string → result string)
    (fromisoformat : string → result datetime)
    (data state area vehicle_type : json) : Prop :=
| ReachesLookup (prompt reply : string)
    (parsed validation is_valid inputs start_datetime end_datetime : json)
    (start_dt end_dt : datetime) :
    build_user_prompt repr data = Ok prompt →
    call_gemini generate_content system_prompt prompt = Ok reply →
    parse_gemini_json repr loads reply = Ok parsed →
    getitem parsed (JStr "validation") = Ok validation →
    getitem validation (JStr "is_valid") = Ok is_valid →
    truthy is_valid = true →
    getitem parsed (JStr "inputs") = Ok inputs →
    getitem inputs (JStr "start_datetime") = Ok start_datetime →
    datetime_fromisoformat fromisoformat start_datetime = Ok start_dt →
    getitem inputs (JStr "end_datetime") = Ok end_datetime →
    datetime_fromisoformat fromisoformat end_datetime = Ok end_dt →
    getitem inputs (JStr "state") = Ok state →
    getitem inputs (JStr "area") = Ok area →
    getitem inputs (JStr "vehicle_type") = Ok vehicle_type →
    reaches_lookup repr loads generate_content fromisoformat
      data state area vehicle_type.

(** *** Sample service *)

Definition q (s : string) : string := String dquote s ++ String dquote "".

(** [repr] on the values the samples print: strings without quotes,
    backslashes or control characters, [None], booleans and ints. *)
Definition sample_repr (v : json) : string :=
  match v with
  | JStr s => "'" ++ s ++ "'"
  | JNull => "None"
  | JBool true => "True"
  | JBool false => "False"
  | JNum (NInt z) => pretty z
  | _ => "<value>"
  end.

(** [fromisoformat] on the two timestamps the samples use. *)
Definition sample_fromisoformat (s : string) : result datetime :=
  if String.eqb s "2024-01-05T10:00:00" then Ok (naive 2024 1 5 10 0)
  else if String.eqb s "2024-01-05T11:30:00" then Ok (naive 2024 1 5 11 30)
  else Raise (ValueError ("Invalid isoformat string: '" ++ s ++ "'")).

(** A request body with its seven fields. *)
Definition sample_request : json :=
  JObj (list_to_map
          [("start_date", JStr "5 Jan 2024"); ("start_time", JStr "10am");
           ("end_date", JStr "5 Jan 2024"); ("end_time", JStr "11:30am");
           ("area", JStr "downtown"); ("state", JStr "CA");
           ("vehicle_type", JStr "car")]).

(** The provider's answer to it, fenced as the provider tends to. *)
Definition sample_reply : string :=
  fenced ("{" ++ q "inputs" ++ ": {" ++ q "start_datetime" ++ ": " ++ q "2024-01-05T10:00:00"
          ++ ", " ++ q "end_datetime" ++ ": " ++ q "2024-01-05T11:30:00"
          ++ ", " ++ q "area" ++ ": " ++ q "downtown"
          ++ ", " ++ q "state" ++ ": " ++ q "CA"
          ++ ", " ++ q "vehicle_type" ++ ": " ++ q "car" ++ "}, "
          ++ q "validation" ++ ": {" ++ q "is_valid" ++ ": true, "
          ++ q "errors" ++ ": []}}").

Definition sample_provider (prompt : string) : result string := Ok sample_reply.

(** A provider that is out of quota. *)
Definition failing_provider (prompt : string) : result string :=
  Raise (OtherError "ResourceExhausted" "429 quota exceeded").

Definition table_of (rule : json) : json :=
  JObj {[ "CA" := JObj {[ "downtown" := JObj {[ "car" := rule ]} ]} ]}.

(** A table with one rule, and one whose only rule is the empty mapping. *)
Definition sample_tariffs : json := table_of (JObj downtown_car).
Definition empty_rule_tariffs : json := table_of (JObj ∅).

(** The sample request without its [vehicle_type] field. *)
Definition incomplete_request : json :=
  JObj (list_to_map
          [("start_date", JStr "5 Jan 2024"); ("start_time", JStr "10am");
           ("end_date", JStr "5 Jan 2024"); ("end_time", JStr "11:30am");
           ("area", JStr "downtown"); ("state", JStr "CA")]).

(** [rest] is what is left of [s] after a prefix of it has been read. *)
Definition consumed (s rest : string) : Prop := ∃ c, s = c ++ rest.

Definition is_object (v : json) : bool :=
  match v with
  | JObj _ => true
  | _ => false
  end.

(** The instant of a datetime in microseconds: on the local calendar for a
    naive value, on the UTC calendar for an aware one. *)
Definition instant_us (d : datetime) : Z :=
  (toordinal d * 86400 + (second d + minute d * 60 + hour d * 3600)) * 1000000
  + microsecond d - default 0 (utcoffset d).

(** ** Startup (lines 14-26)

    The module reads the API key from the environment and the tariff table
    from tariffs.json.  [GEMINI_API] is the value of [os.getenv]; the file
    is [None] when the path does not exist and its text otherwise. *)

Definition TARIFFS_PATH : string := "tariffs.json".

Definition startup (loads : string → result json)
    (GEMINI_API : option string) (tariffs_file : option string) : result json :=
  let GEMINI_API_KEY := from_option JStr JNull GEMINI_API in
  if negb (truthy GEMINI_API_KEY)
  then Raise (ValueError "GEMINI_API not found in .env")
  else
    match tariffs_file with
    | None =>
        Raise (OtherError "FileNotFoundError"
                 (TARIFFS_PATH ++ " not found. Please create it with tariff data."))
    | Some text => loads text
    end.

(** ** Vocabulary of the further statements *)


Definition qmin (a b : Q) : Q := if Qle_bool a b then a else b.




(** The fields of the request body the prompt is built from, in the order
    of lines 87-89. *)
Definition required_fields : list string :=
  ["start_date"; "start_time"; "end_date"; "end_time"; "area"; "state"; "vehicle_type"].

(** [s] holds no occurrence of [c]. *)
Definition absent (c : ascii) (s : string) : Prop := find s c = -1.

(** [part] is a contiguous part of [s]. *)
Definition substring_of (part s : string) : Prop := ∃ a b, s = a ++ part ++ b.

(** A value that can be a dict key: everything but a list or a dict. *)
Definition hashable (v : json) : bool :=
  match v with
  | JArr _ | JObj _ => false
  | _ => true
  end.

(** *** Further sample data *)

(** 10:00 and 12:00 on Friday 2024-01-05, the first naive, the second at UTC+1. *)
Definition aware_noon : datetime :=
  {| year := 2024; month := 1; day := 5; hour := 12; minute := 0;
     second := 0; microsecond := 0; utcoffset := Some 3600000000 |}.



(** The provider's answer when it finds the request invalid. *)
Definition invalid_reply : string :=
  "{" ++ q "inputs" ++ ": {}, " ++ q "validation" ++ ": {" ++ q "is_valid"
  ++ ": false, " ++ q "errors" ++ ": [" ++ q "invalid area" ++ "]}}".

Definition invalid_provider (prompt : string) : result string := Ok invalid_reply.

(** The sample answer without its fence. *)
Definition bare_reply : string :=
  "{" ++ q "inputs" ++ ": {" ++ q "start_datetime" ++ ": " ++ q "2024-01-05T10:00:00"
  ++ ", " ++ q "end_datetime" ++ ": " ++ q "2024-01-05T11:30:00"
  ++ ", " ++ q "area" ++ ": " ++ q "downtown"
  ++ ", " ++ q "state" ++ ": " ++ q "CA"
  ++ ", " ++ q "vehicle_type" ++ ": " ++ q "car" ++ "}, "
  ++ q "validation" ++ ": {" ++ q "is_valid" ++ ": true, "
  ++ q "errors" ++ ": []}}".

Definition bare_provider (prompt : string) : result string := Ok bare_reply.

(** An aware datetime carries a UTC offset, a naive one does not. *)
Definition is_aware (d : datetime) : bool :=
  match utcoffset d with
  | Some _ => true
  | None => false
  end.

(** The string a key is, if it is one. *)
Definition as_str (v : json) : option string :=
  match v with
  | JStr s => Some s
  | _ => None
  end.

(** The entry under three keys of any hashable kind: only strings are keys
    of a table decoded from JSON. *)
Definition lookup_keys (tariffs state area vehicle_type : json) : option json :=
  s ← as_str state; a ← as_str area; v ← as_str vehicle_type;
  lookup_path tariffs s a v.

(** A provider that fences every reply of [generate_content]. *)
Definition fence_replies (generate_content : string → result string)
    (prompt : string) : result string :=
  reply ←! generate_content prompt; Ok (fenced reply).

(** The request is extracted: the prompt is built, the provider answers,
    the answer parses, is valid, and holds the inputs with these
    timestamps and keys. *)
Inductive extracts (repr : json → string) (loads : string → result json)
    (generate_content : string → result string)
    (fromisoformat : string → result datetime)
    (data inputs : json) (start_dt end_dt : datetime)
    (state area vehicle_type : json) : Prop :=
| Extracts (prompt reply : string)
    (parsed validation is_valid start_datetime end_datetime : json) :
    build_user_prompt repr data = Ok prompt →
    call_gemini generate_content system_prompt prompt = Ok reply →
    parse_gemini_json repr loads reply = Ok parsed →
    getitem parsed (JStr "validation") = Ok validation →
    getitem validation (JStr "is_valid") = Ok is_valid →
    truthy is_valid = true →
    getitem parsed (JStr "inputs") = Ok inputs →
    getitem inputs (JStr "start_datetime") = Ok start_datetime →
    datetime_fromisoformat fromisoformat start_datetime = Ok start_dt →
    getitem inputs (JStr "end_datetime") = Ok end_datetime →
    datetime_fromisoformat fromisoformat end_datetime = Ok end_dt →
    getitem inputs (JStr "state") = Ok state →
    getitem inputs (JStr "area") = Ok area →
    getitem inputs (JStr "vehicle_type") = Ok vehicle_type →
    extracts repr loads generate_content fromisoformat
      data inputs start_dt end_dt state area vehicle_type.

(** A table whose rule for CA / downtown / car is the number 5. *)
Definition number_rule_tariffs : json := table_of (int 5).

(** The user prompt built from the sample request. *)
Definition sample_prompt : string :=
  "Start date: 5 Jan 2024, start time: 10am, end date: 5 Jan 2024, "
  ++ "end time: 11:30am, area: downtown, state: CA, vehicle: car."
  ++ " Extract and validate these inputs for a parking tariff calculator. "
  ++ "Return ONLY JSON with: normalized ISO-8601 datetimes, area, state, vehicle_type, "
  ++ "and any validation errors. Do not compute prices.".

(** A provider that answers in prose. *)
Definition prose_provider (prompt : string) : result string :=
  Ok "Sorry, I cannot help with that.".

(** * Properties *)

(** ** Arithmetic *)

Lemma timedelta_us_of_us (t : Z) : timedelta_us (timedelta_of_us t) = t.
Proof.
  unfold timedelta_us, timedelta_of_us; simpl.
  pose proof (Z.div_mod t 1000000 ltac:(lia)) as H1.
  pose proof (Z.div_mod (t / 1000000) 86400 ltac:(lia)) as H2.
  replace 86400000000 with (1000000 * 86400) by lia.
  rewrite <- Z.div_div by lia. lia.
Qed.

Lemma weekday_range (d : datetime) : 0 <= weekday d < 7.
Proof. unfold weekday. apply Z.mod_pos_bound. lia. Qed.

Lemma weekend_test (d : datetime) :
  (5 <=? weekday d) = true ↔ is_saturday_or_sunday d.
Proof.
  unfold is_saturday_or_sunday. pose proof (weekday_range d).
  rewrite Z.leb_le. lia.
Qed.






(** ** Rounding to two decimals *)







(** ** The pricing engine, case by case *)

Lemma compute_price_unfold (s e : datetime) (t : gmap string json) (d : timedelta) :
  datetime_sub e s = Ok d →
  compute_price s e (JObj t) =
    (in_grace ←! py_le (total_minutes d) (grace_minutes t);
     if in_grace then Ok (NInt 0)
     else price_with t (billable_hours t (total_hours d)) (multiplier_for s e t)).
Proof.
  intros H. unfold compute_price. rewrite H. simpl.
  unfold grace_minutes, total_minutes.
  destruct (py_le _ _) as [[|] | ?]; simpl; try reflexivity.
  unfold price_with, multiplier_for, billable_hours, ceil_to_next_hour,
    total_hours, total_minutes, weekend_multiplier.
  destruct ((5 <=? weekday s) || (5 <=? weekday e)), (eq_str _ _);
    try reflexivity; destruct (Qeq_bool _ _); reflexivity.
Qed.

Lemma compute_price_in_grace (s e : datetime) (t : gmap string json) (d : timedelta) (g : num) :
  datetime_sub e s = Ok d →
  as_num (grace_minutes t) = Some g →
  (total_minutes d <= num_Q g)%Q →
  compute_price s e (JObj t) = Ok (NInt 0).
Proof.
  intros Hd Hg Hle. rewrite (compute_price_unfold _ _ _ _ Hd).
  unfold py_le. rewrite Hg.
  apply Qle_bool_iff in Hle. simpl. rewrite Hle. reflexivity.
Qed.

Lemma compute_price_past_grace (s e : datetime) (t : gmap string json) (d : timedelta) :
  datetime_sub e s = Ok d →
  exceeds_grace t d →
  compute_price s e (JObj t)
  = price_with t (billable_hours t (total_hours d)) (multiplier_for s e t).
Proof.
  intros Hd (g & Hg & Hlt). rewrite (compute_price_unfold _ _ _ _ Hd).
  unfold py_le. rewrite Hg. simpl.
  destruct (Qle_bool (total_minutes d) (num_Q g)) eqn:E; [| reflexivity].
  apply Qle_bool_iff in E. lra.
Qed.





(** The difference of two datetimes of the same kind is the difference of
    their instants. *)
Lemma datetime_sub_us (a b : datetime) (d : timedelta) :
  datetime_sub a b = Ok d → timedelta_us d = instant_us a - instant_us b.
Proof.
  unfold datetime_sub, instant_us, mk_timedelta.
  destruct (utcoffset a) as [oa |], (utcoffset b) as [ob |]; try done;
    intros [= <-]; rewrite !timedelta_us_of_us; simpl; lia.
Qed.

(** End before start is a negative duration. *)
Lemma end_before_start_negative (s e : datetime) (d : timedelta) :
  datetime_sub e s = Ok d →
  instant_us e < instant_us s → (total_minutes d < 0)%Q.
Proof.
  intros Hd Hlt. apply datetime_sub_us in Hd.
  unfold total_minutes, total_seconds.
  assert (timedelta_us d < 0) as H by lia.
  rewrite Zlt_Qlt in H. change (inject_Z 0) with 0%Q in H.
  revert H. generalize (inject_Z (timedelta_us d)). intros x Hx.
  do 2 (apply Qlt_shift_div_r; [reflexivity |]). lra.
Qed.

(** Past a grace period that is not negative the duration is positive. *)
Lemma exceeds_grace_positive (t : gmap string json) (d : timedelta) (g : num) :
  as_num (grace_minutes t) = Some g → (0 <= num_Q g)%Q →
  exceeds_grace t d → (0 < total_hours d)%Q.
Proof.
  intros Hg Hpos (g' & Hg' & Hlt). rewrite Hg in Hg'. injection Hg' as <-.
  unfold total_hours. apply Qlt_shift_div_l; [reflexivity | lra].
Qed.

(** ** Claims about the pricing engine *)




(** The rounding of line 81 also lifts a price above a cap that is not a
    whole number of cents: 10.006 becomes 10.01. *)
Example price_above_subcent_cap :
  ∃ p, compute_price (naive 2024 1 5 10 0) (naive 2024 1 5 11 0) (JObj subcent_cap) = Ok p
       ∧ (num_Q p == 1001 # 100)%Q ∧ (10006 # 1000 < num_Q p)%Q.
Proof. eexists. split; [vm_compute; reflexivity |]. split; reflexivity. Qed.

(** C2.  When the duration in minutes is at most [grace_minutes] (0 when
    the key is absent), [compute_price] returns the integer 0 at once:
    whatever else the tariff holds or lacks, nothing is looked up,
    multiplied, clamped or rounded. *)
Theorem grace_period_is_free (s e : datetime) (t : gmap string json)
    (d : timedelta) (g : num) :
  datetime_sub e s = Ok d →
  as_num (default (JNum (NInt 0)) (t !! "grace_minutes")) = Some g →
  (total_seconds d / 60 <= num_Q g)%Q →
  compute_price s e (JObj t) = Ok (NInt 0).
Proof. apply compute_price_in_grace. Qed.

Lemma grace_period_is_free_witness :
  compute_price (naive 2024 1 5 10 0) (naive 2024 1 5 10 15) (JObj downtown_car)
  = Ok (NInt 0).
Proof.
  apply (grace_period_is_free _ _ _
           {| days := 0; seconds := 900; microseconds := 0 |} (NInt 15)).
  - reflexivity.
  - reflexivity.
  - vm_compute. discriminate.
Defined.

(** With no [grace_minutes] key the grace period is 0 minutes, and the
    mandatory keys are not needed either. *)
Example grace_default_zero :
  compute_price (naive 2024 1 5 10 0) (naive 2024 1 5 10 0) (JObj ∅) = Ok (NInt 0).
Proof. reflexivity. Qed.





(** C4.  Past the grace check the price is computed with the
    [weekend_multiplier] of the tariff (1.0 when the key is absent) if the
    start or the end falls on a Saturday or Sunday, and with exactly 1.0 if
    neither does, whatever lies between them. *)
Theorem weekend_multiplier_by_endpoints (s e : datetime) (t : gmap string json)
    (d : timedelta) :
  datetime_sub e s = Ok d →
  exceeds_grace t d →
  (is_saturday_or_sunday s ∨ is_saturday_or_sunday e →
   compute_price s e (JObj t)
   = price_with t (billable_hours t (total_hours d))
       (default (JNum (NFloat 1)) (t !! "weekend_multiplier")))
  ∧ (¬ is_saturday_or_sunday s → ¬ is_saturday_or_sunday e →
     compute_price s e (JObj t)
     = price_with t (billable_hours t (total_hours d)) (JNum (NFloat 1))).
Proof.
  intros Hd Hgrace. rewrite (compute_price_past_grace s e t d Hd Hgrace).
  unfold multiplier_for. split.
  - intros Hw. rewrite <- !weekend_test in Hw.
    apply orb_true_iff in Hw. rewrite Hw. reflexivity.
  - intros Hs He. rewrite <- weekend_test in Hs, He.
    apply not_true_is_false in Hs, He. rewrite Hs, He. reflexivity.
Qed.

(** A stay from Friday to Saturday is priced with the multiplier 2. *)
Lemma weekend_multiplier_by_endpoints_witness :
  compute_price (naive 2024 1 5 23 0) (naive 2024 1 6 1 0) (JObj weekend_car)
  = price_with weekend_car (NInt 2) (int 2).
Proof.
  destruct (weekend_multiplier_by_endpoints (naive 2024 1 5 23 0) (naive 2024 1 6 1 0)
              weekend_car {| days := 0; seconds := 7200; microseconds := 0 |})
    as [Hw _].
  - reflexivity.
  - exists (NInt 15). split; [reflexivity | vm_compute; reflexivity].
  - rewrite Hw; [reflexivity |]. right. left. reflexivity.
Defined.

(** 2024-01-05 is a Friday, the 6th a Saturday, the 8th a Monday. *)
Example weekday_samples :
  weekday (naive 2024 1 5 10 0) = 4 ∧ weekday (naive 2024 1 6 10 0) = 5
  ∧ weekday (naive 2024 1 7 10 0) = 6 ∧ weekday (naive 2024 1 8 10 0) = 0.
Proof. repeat split. Qed.

(** From Friday to Monday the stay spans the whole weekend, and the
    multiplier 2 is not applied: 72 hours at 2 an hour exceed the cap. *)
Example friday_to_monday :
  ∃ p, compute_price (naive 2024 1 5 10 0) (naive 2024 1 8 10 0)
         (JObj (<["daily_cap" := int 1000]> weekend_car)) = Ok p
       ∧ (num_Q p == 144)%Q.
Proof. eexists. split; [vm_compute; reflexivity | reflexivity]. Qed.

(** C5, as amended.  With a grace period that is absent or not negative,
    an end before the start is not rejected: the duration is negative, and
    it never reaches the pricing arithmetic, for the grace check returns
    the integer 0. *)
Theorem negative_duration_is_free (s e : datetime) (t : gmap string json)
    (d : timedelta) (g : num) :
  datetime_sub e s = Ok d →
  instant_us e < instant_us s →
  as_num (grace_minutes t) = Some g →
  (0 <= num_Q g)%Q →
  (total_minutes d < 0)%Q ∧ compute_price s e (JObj t) = Ok (NInt 0).
Proof.
  intros Hd Hlt Hg Hpos.
  pose proof (end_before_start_negative s e d Hd Hlt) as Hneg.
  split; [done |]. apply (compute_price_in_grace s e t d g Hd Hg). lra.
Qed.

Lemma negative_duration_is_free_witness :
  compute_price (naive 2024 1 5 10 30) (naive 2024 1 5 10 0) (JObj downtown_car)
  = Ok (NInt 0).
Proof.
  apply (negative_duration_is_free _ _ _
           {| days := -1; seconds := 84600; microseconds := 0 |} (NInt 15)).
  - reflexivity.
  - reflexivity.
  - reflexivity.
  - vm_compute. discriminate.
Defined.

(** C5 as stated fails for a negative grace period: 30 minutes backwards
    pass a grace period of -120 minutes, [int(-0.5) + 1] bills one hour,
    and the price is 2. *)
Lemma negative_duration_positive_price :
  let s := naive 2024 1 5 10 30 in
  let e := naive 2024 1 5 10 0 in
  ∃ d p, datetime_sub e s = Ok d
         ∧ (total_minutes d == - (30))%Q
         ∧ compute_price s e (JObj negative_grace) = Ok p
         ∧ (num_Q p == 2)%Q ∧ ¬ (num_Q p <= 0)%Q.
Proof.
  do 2 eexists. split; [reflexivity |]. split; [reflexivity |].
  split; [vm_compute; reflexivity |]. split; [reflexivity |].
  vm_compute. intros H. by apply H.
Qed.

(** ** Text operations *)

#[local] Arguments String.append !_ _ / : simpl nomatch.

Lemma app_str_assoc (a b c : string) : (a ++ b) ++ c = a ++ (b ++ c).
Proof. induction a as [| x a IH]; simpl; [done | by rewrite IH]. Qed.

Lemma length_app_str (a b : string) :
  String.length (a ++ b) = (String.length a + String.length b)%nat.
Proof. induction a as [| x a IH]; simpl; [done | by rewrite IH]. Qed.

Lemma drop_str_app (a b : string) : drop_str (String.length a) (a ++ b) = b.
Proof. induction a as [| x a IH]; simpl; [by destruct b | done]. Qed.

Lemma take_str_app (a b : string) : take_str (String.length a) (a ++ b) = a.
Proof. induction a as [| x a IH]; simpl; [by destruct b | by rewrite IH]. Qed.

Lemma slice_from_app (a b : string) :
  slice_from (a ++ b) (Z.of_nat (String.length a)) = b.
Proof.
  unfold slice_from, slice_bound.
  destruct (Z.ltb_spec (Z.of_nat (String.length a)) 0); [lia |].
  rewrite Nat2Z.id. apply drop_str_app.
Qed.

Lemma slice_to_app (a b : string) :
  slice_to (a ++ b) (Z.of_nat (String.length a)) = a.
Proof.
  unfold slice_to, slice_bound.
  destruct (Z.ltb_spec (Z.of_nat (String.length a)) 0); [lia |].
  rewrite Nat2Z.id. apply take_str_app.
Qed.

Lemma find_range (s : string) (c : ascii) : -1 <= find s c.
Proof.
  induction s as [| a s IH]; simpl; [lia |].
  destruct (Ascii.eqb a c); [lia |]. destruct (Z.eqb_spec (find s c) (-1)); lia.
Qed.

Lemma rfind_range (s : string) (c : ascii) : -1 <= rfind s c.
Proof.
  induction s as [| a s IH]; simpl; [lia |].
  destruct (Z.eqb_spec (rfind s c) (-1)); [destruct (Ascii.eqb a c) |]; lia.
Qed.

(** Past a prefix without [c], [find] continues in the rest. *)
Lemma find_app_absent (a b : string) (c : ascii) :
  find a c = -1 →
  find (a ++ b) c
  = if find b c =? -1 then -1 else Z.of_nat (String.length a) + find b c.
Proof.
  induction a as [| x a IH]; simpl.
  - intros _. destruct (Z.eqb_spec (find b c) (-1)); lia.
  - destruct (Ascii.eqb x c); [lia |].
    destruct (Z.eqb_spec (find a c) (-1)) as [E | E]; [| pose proof (find_range a c); lia].
    intros _. rewrite (IH E).
    destruct (Z.eqb_spec (find b c) (-1)); simpl; [done |].
    pose proof (find_range b c).
    destruct (Z.eqb_spec (Z.of_nat (String.length a) + find b c) (-1)); lia.
Qed.

(** Before a suffix without [c], [rfind] is decided by the prefix. *)
Lemma rfind_app_absent (a b : string) (c : ascii) :
  rfind b c = -1 → rfind (a ++ b) c = rfind a c.
Proof.
  intros Hb. induction a as [| x a IH]; simpl; [done |]. by rewrite IH.
Qed.

Lemma rfind_last (a : string) (c : ascii) :
  rfind (a ++ String c "") c = Z.of_nat (String.length a).
Proof.
  induction a as [| x a IH]; simpl.
  - by rewrite Ascii.eqb_refl.
  - rewrite IH. destruct (Z.eqb_spec (Z.of_nat (String.length a)) (-1)); lia.
Qed.

Lemma find_all_space (w : string) (c : ascii) :
  all_space w = true → isspace c = false → find w c = -1.
Proof.
  intros Hw Hc. induction w as [| x w IH]; simpl in *; [done |].
  apply andb_true_iff in Hw as [Hx Hw].
  destruct (Ascii.eqb_spec x c) as [-> | _]; [congruence |].
  by rewrite (IH Hw).
Qed.

Lemma rfind_all_space (w : string) (c : ascii) :
  all_space w = true → isspace c = false → rfind w c = -1.
Proof.
  intros Hw Hc. induction w as [| x w IH]; simpl in *; [done |].
  apply andb_true_iff in Hw as [Hx Hw]. rewrite (IH Hw). simpl.
  destruct (Ascii.eqb_spec x c) as [-> | _]; [congruence | done].
Qed.

Lemma lstrip_all_space (w s : string) :
  all_space w = true → lstrip (w ++ s) = lstrip s.
Proof.
  intros Hw. induction w as [| x w IH]; simpl in *; [done |].
  apply andb_true_iff in Hw as [-> Hw]. auto.
Qed.

Lemma rstrip_all_space (w : string) : all_space w = true → rstrip w = "".
Proof.
  intros Hw. induction w as [| x w IH]; simpl in *; [done |].
  apply andb_true_iff in Hw as [-> Hw]. by rewrite (IH Hw).
Qed.

Lemma rstrip_ends_nonspace (a : string) (c : ascii) (w : string) :
  isspace c = false → all_space w = true →
  rstrip (a ++ String c w) = a ++ String c "".
Proof.
  intros Hc Hw. induction a as [| x a IH]; simpl.
  - rewrite (rstrip_all_space w Hw), Hc. done.
  - rewrite IH. by destruct a.
Qed.

(** Stripping a text that is whitespace around a core which starts and
    ends with a character that is no whitespace leaves the core. *)
Lemma strip_core (w1 : string) (c1 : ascii) (mid : string) (c2 : ascii) (w2 : string) :
  all_space w1 = true → all_space w2 = true →
  isspace c1 = false → isspace c2 = false →
  strip (w1 ++ String c1 (mid ++ String c2 w2)) = String c1 (mid ++ String c2 "").
Proof.
  intros H1 H2 Hc1 Hc2. unfold strip.
  rewrite (lstrip_all_space _ _ H1). simpl lstrip. rewrite Hc1.
  apply (rstrip_ends_nonspace (String c1 mid) c2 w2 Hc2 H2).
Qed.

(** ** The response extractor *)

Lemma app_str_nil_r (a : string) : a ++ "" = a.
Proof. induction a as [| x a IH]; simpl; [done | by rewrite IH]. Qed.

Lemma rfind_core (body : string) :
  rfind ("{" ++ body ++ "}") "}" = Z.of_nat (String.length ("{" ++ body)).
Proof. rewrite <- (rfind_last ("{" ++ body) "}"). by rewrite app_str_assoc. Qed.

Lemma length_core (body : string) :
  String.length ("{" ++ body ++ "}") = S (String.length ("{" ++ body)).
Proof. rewrite <- app_str_assoc, length_app_str. simpl. lia. Qed.

(** Steps 4 and 5 on a text that starts with the object and has no closing
    brace after it. *)
Lemma brace_span_core (body rest : string) :
  rfind rest "}" = -1 →
  brace_span (("{" ++ body ++ "}") ++ rest) = "{" ++ body ++ "}".
Proof.
  intros Hrest. unfold brace_span.
  assert (find (("{" ++ body ++ "}") ++ rest) "{" = 0) as -> by reflexivity.
  change (negb (0 =? -1)) with true. cbv iota.
  assert (slice_from (("{" ++ body ++ "}") ++ rest) 0 = ("{" ++ body ++ "}") ++ rest)
    as -> by reflexivity.
  rewrite (rfind_app_absent _ _ _ Hrest), rfind_core.
  destruct (Z.eqb_spec (Z.of_nat (String.length ("{" ++ body))) (-1)) as [E | _]; [lia |].
  replace (Z.of_nat (String.length ("{" ++ body)) + 1)
    with (Z.of_nat (String.length ("{" ++ body ++ "}")))
    by (rewrite length_core; lia).
  apply slice_to_app.
Qed.

(** The bare payload: the parser is handed the object without the
    surrounding whitespace. *)
Lemma json_text_bare (w1 body w2 : string) :
  all_space w1 = true → all_space w2 = true →
  json_text (w1 ++ "{" ++ body ++ "}" ++ w2) = "{" ++ body ++ "}".
Proof.
  intros H1 H2. unfold json_text.
  change (w1 ++ "{" ++ body ++ "}" ++ w2)
    with (w1 ++ String "{" (body ++ String "}" w2)).
  rewrite (strip_core w1 "{" body "}" w2 H1 H2 eq_refl eq_refl).
  change (String "{" (body ++ String "}" "")) with ("{" ++ body ++ "}").
  assert (without_fence ("{" ++ body ++ "}") = "{" ++ body ++ "}") as -> by reflexivity.
  rewrite <- (app_str_nil_r ("{" ++ body ++ "}")) at 1.
  by apply brace_span_core.
Qed.

Lemma strip_fenced (p : string) : strip (fenced p) = fenced p.
Proof.
  unfold fenced.
  assert ("```json" ++ nl ++ p ++ nl ++ "```"
          = "" ++ String "`" (("``json" ++ nl ++ p ++ nl ++ "``") ++ String "`" "")) as ->.
  { rewrite !app_str_assoc. reflexivity. }
  by rewrite (strip_core "" "`" _ "`" "" eq_refl eq_refl eq_refl eq_refl).
Qed.

(** The fenced payload: the same text reaches the parser. *)
Lemma json_text_fenced (w1 body w2 : string) :
  all_space w1 = true → all_space w2 = true →
  json_text (fenced (w1 ++ "{" ++ body ++ "}" ++ w2)) = "{" ++ body ++ "}".
Proof.
  intros H1 H2. unfold json_text. rewrite strip_fenced.
  assert (without_fence (fenced (w1 ++ "{" ++ body ++ "}" ++ w2))
          = (nl ++ w1) ++ ("{" ++ body ++ "}") ++ (w2 ++ nl ++ "```")) as ->.
  { unfold without_fence, fenced. rewrite !app_str_assoc. reflexivity. }
  assert (all_space (nl ++ w1) = true) as Hn by (simpl; exact H1).
  assert (rfind (w2 ++ nl ++ "```") "}" = -1) as Hrest.
  { rewrite rfind_app_absent by reflexivity. by apply rfind_all_space. }
  unfold brace_span at 1.
  rewrite (find_app_absent (nl ++ w1)) by (by apply find_all_space).
  assert (find (("{" ++ body ++ "}") ++ w2 ++ nl ++ "```") "{" = 0) as -> by reflexivity.
  change (negb (0 =? -1)) with true. cbv iota.
  rewrite Z.add_0_r, slice_from_app.
  apply (brace_span_core body _ Hrest).
Qed.

(** ** The decoder reads a prefix of its input *)

Lemma consumed_refl (s : string) : consumed s s.
Proof. by exists "". Qed.

Lemma consumed_cons (c : ascii) (s rest : string) :
  consumed s rest → consumed (String c s) rest.
Proof. intros [p ->]. by exists (String c p). Qed.

Lemma consumed_trans (s t rest : string) :
  consumed s t → consumed t rest → consumed s rest.
Proof. intros [p ->] [p' ->]. exists (p ++ p'). by rewrite app_str_assoc. Qed.

Lemma drop_str_consumed (n : nat) (s : string) : consumed s (drop_str n s).
Proof.
  revert s. induction n as [| n IH]; intros [| c s]; simpl; try apply consumed_refl.
  apply consumed_cons, IH.
Qed.

Lemma head_is_cons (s : string) (c : ascii) :
  head_is s c = true → s = String c (drop_str 1 s).
Proof. destruct s as [| a s]; simpl; [done |]. by intros ->%Ascii.eqb_eq. Qed.

Lemma json_ws_isspace (c : ascii) : is_json_ws c = true → isspace c = true.
Proof.
  unfold is_json_ws, isspace. generalize (N_of_ascii c). intros n H.
  repeat match goal with
         | H : (_ || _) = true |- _ => apply orb_true_iff in H as [H | H]
         end;
    apply N.eqb_eq in H; subst n; reflexivity.
Qed.

Lemma skip_ws_spec (s : string) (i : nat) :
  ∃ w, all_space w = true ∧ s = w ++ (skip_ws s i).1.
Proof.
  revert i. induction s as [| c s IH]; intros i; simpl.
  - by exists "".
  - destruct (is_json_ws c) eqn:E.
    + destruct (IH (S i)) as (w & Hw & Hs). exists (String c w). simpl.
      rewrite (json_ws_isspace c E), Hw. split; [done |]. by rewrite <- Hs.
    + by exists "".
Qed.

Lemma skip_ws_consumed (s : string) (i : nat) : consumed s (skip_ws s i).1.
Proof. destruct (skip_ws_spec s i) as (w & _ & H). by exists w. Qed.

Lemma scan_digits_consumed (s : string) (acc : Z) (n : nat) :
  consumed s (scan_digits s acc n).2.
Proof.
  revert acc n. induction s as [| c s IH]; intros acc n; simpl.
  - apply consumed_refl.
  - destruct (digit_of c); [apply consumed_cons, IH | apply consumed_refl].
Qed.

Lemma scan_minus_consumed (s : string) : consumed s (scan_minus s).2.
Proof.
  destruct s as [| c s]; simpl; [apply consumed_refl |].
  destruct (Ascii.eqb c "-"); [apply consumed_cons |]; apply consumed_refl.
Qed.

Lemma scan_int_consumed (s : string) (v : Z) (k : nat) (rest : string) :
  scan_int s = Some (v, k, rest) → consumed s rest.
Proof.
  unfold scan_int. destruct s as [| c s]; [done |].
  destruct (Ascii.eqb c "0").
  - intros [= _ _ <-]. apply consumed_cons, consumed_refl.
  - destruct (starts_with_digit (String c s)); [| done]. intros H.
    pose proof (scan_digits_consumed (String c s) 0 0) as Hc.
    set (r := scan_digits (String c s) 0 0) in *. by injection H as ->.
Qed.

Lemma scan_frac_consumed (s : string) : consumed s (scan_frac s).2.
Proof.
  destruct s as [| c s]; simpl; [apply consumed_refl |].
  destruct (Ascii.eqb c "." && starts_with_digit s); [| apply consumed_refl].
  pose proof (scan_digits_consumed s 0 0) as Hc.
  destruct (scan_digits s 0 0) as [[v k] rest]. by apply consumed_cons.
Qed.

Lemma scan_exp_consumed (s : string) : consumed s (scan_exp s).2.
Proof.
  destruct s as [| e s]; simpl; [apply consumed_refl |].
  destruct (Ascii.eqb e "e" || Ascii.eqb e "E"); [| apply consumed_refl].
  assert (∀ r1 : string, consumed s r1 →
            consumed (String e s)
              (if starts_with_digit r1
               then let '(ev, kd, rest) := scan_digits r1 0 0 in
                    (Some (ev, kd), rest)
               else (None, String e s)).2) as Hgen.
  { intros r1 Hr1. destruct (starts_with_digit r1); [| apply consumed_refl].
    pose proof (scan_digits_consumed r1 0 0) as Hc.
    destruct (scan_digits r1 0 0) as [[ev kd] rest]. simpl in *.
    apply consumed_cons. by eapply consumed_trans. }
  destruct s as [| c s'].
  - simpl. apply consumed_refl.
  - destruct (Ascii.eqb c "-"); [| destruct (Ascii.eqb c "+")].
    + specialize (Hgen s' (consumed_cons _ _ _ (consumed_refl _))).
      destruct (starts_with_digit s'); [| apply consumed_refl].
      destruct (scan_digits s' 0 0) as [[ev kd] rest]. exact Hgen.
    + specialize (Hgen s' (consumed_cons _ _ _ (consumed_refl _))).
      destruct (starts_with_digit s'); [| apply consumed_refl].
      destruct (scan_digits s' 0 0) as [[ev kd] rest]. exact Hgen.
    + specialize (Hgen (String c s') (consumed_refl _)).
      destruct (starts_with_digit (String c s')); [| apply consumed_refl].
      destruct (scan_digits (String c s') 0 0) as [[ev kd] rest]. exact Hgen.
Qed.

Lemma match_number_consumed (s : string) (n : num) (k : nat) (rest : string) :
  match_number s = Some (n, k, rest) → consumed s rest.
Proof.
  unfold match_number.
  pose proof (scan_minus_consumed s) as H1.
  destruct (scan_minus s) as [neg s1]. simpl in H1.
  destruct (scan_int s1) as [[[ip k1] s2] |] eqn:E2; [| done].
  apply scan_int_consumed in E2.
  pose proof (scan_frac_consumed s2) as H3.
  destruct (scan_frac s2) as [frac s3]. simpl in H3.
  pose proof (scan_exp_consumed s3) as H4.
  destruct (scan_exp s3) as [exp s4]. simpl in H4.
  assert (consumed s s4) as Hc by eauto using consumed_trans.
  destruct frac as [[??] |], exp as [[??] |]; intros [= _ _ <-]; exact Hc.
Qed.

Lemma scanstring_consumed_upto (n : nat) :
  ∀ s, (String.length s <= n)%nat →
  ∀ i start k rest j, scanstring s i start = Scanned k rest j → consumed s rest.
Proof.
  induction n as [| n IH]; intros [| c s] Hlen i start k rest j; simpl in *;
    try done; try lia.
  assert (∀ t a i' k' rest' j',
            (String.length t <= n)%nat →
            match scanstring t i' start with
            | Scanned k0 rest0 j0 => Scanned (String a k0) rest0 j0
            | Failed m p => Failed m p
            end = Scanned k' rest' j' → consumed t rest') as Hcons.
  { intros t a i' k' rest' j' Ht H.
    destruct (scanstring t i' start) as [k0 rest0 j0 |] eqn:E; [| done].
    injection H as _ <- _. by eapply IH. }
  destruct (Ascii.eqb c dquote).
  { intros [= _ <- _]. apply consumed_cons, consumed_refl. }
  destruct (Ascii.eqb c "\").
  - destruct s as [| e s]; [done |]. simpl in Hlen.
    destruct (Ascii.eqb e "u").
    + destruct s as [| h1 [| h2 [| h3 [| h4 [| c5 t]]]]]; try done.
      destruct (hex4 h1 h2 h3 h4) as [code |]; [| done].
      destruct (code <? 256); [| done]. intros H.
      do 6 apply consumed_cons. eapply Hcons; [| exact H]. simpl in *. lia.
    + destruct (unescape e); [| done]. intros H.
      do 2 apply consumed_cons. eapply Hcons; [| exact H]. lia.
  - destruct (N_of_ascii c <=? 31)%N; [done |]. intros H.
    apply consumed_cons. eapply Hcons; [| exact H]. lia.
Qed.

Lemma scanstring_consumed (s : string) (i start : nat) (k rest : string) (j : nat) :
  scanstring s i start = Scanned k rest j → consumed s rest.
Proof. by apply (scanstring_consumed_upto (String.length s)). Qed.

Lemma skip_ws_as (s : string) (i : nat) (s1 : string) (i1 : nat) :
  skip_ws s i = (s1, i1) → consumed s s1.
Proof. intros H. pose proof (skip_ws_consumed s i) as Hc. by rewrite H in Hc. Qed.

Lemma head_is_consumed (s : string) (c : ascii) :
  head_is s c = true → consumed s (drop_str 1 s).
Proof. intros _. apply drop_str_consumed. Qed.

(** What the three scanners return is the rest of their input; an object
    ends with its closing brace. *)
Lemma scanners_consumed (fuel : nat) :
  (∀ s i v rest j, scan_once fuel s i = Scanned v rest j →
     consumed s rest
     ∧ (is_object v = true → ∃ body, s = "{" ++ body ++ "}" ++ rest))
  ∧ (∀ acc s i v rest j, object_items fuel acc s i = Scanned v rest j →
       ∃ c, s = c ++ "}" ++ rest)
  ∧ (∀ acc s i v rest j, array_items fuel acc s i = Scanned v rest j →
       consumed s rest ∧ is_object v = false).
Proof.
  induction fuel as [| fuel (IH1 & IH2 & IH3)]; [by repeat split |].
  split; [| split].
  - intros [| c r] i v rest j; [done |].
    change (scan_once (S fuel) (String c r) i) with
      (if Ascii.eqb c dquote then
         match scanstring r (S i) i with
         | Scanned k rest j => Scanned (JStr k) rest j
         | Failed m p => Failed m p
         end
       else if Ascii.eqb c "{" then
         let '(s1, i1) := skip_ws r (S i) in
         if head_is s1 "}" then Scanned (JObj ∅) (drop_str 1 s1) (S i1)
         else if head_is s1 dquote then object_items fuel ∅ (drop_str 1 s1) (S i1)
         else Failed "Expecting property name enclosed in double quotes" i1
       else if Ascii.eqb c "[" then
         let '(s1, i1) := skip_ws r (S i) in
         if head_is s1 "]" then Scanned (JArr []) (drop_str 1 s1) (S i1)
         else array_items fuel [] s1 i1
       else if String.prefix "null" (String c r)
            then Scanned JNull (drop_str 4 (String c r)) (i + 4)
       else if String.prefix "true" (String c r)
            then Scanned (JBool true) (drop_str 4 (String c r)) (i + 4)
       else if String.prefix "false" (String c r)
            then Scanned (JBool false) (drop_str 5 (String c r)) (i + 5)
       else
         match match_number (String c r) with
         | Some (n, k, rest) => Scanned (JNum n) rest (i + k)
         | None =>
             if String.prefix "NaN" (String c r) || String.prefix "Infinity" (String c r)
                || String.prefix "-Infinity" (String c r)
             then Failed "non-finite float (outside this model)" i
             else Failed "Expecting value" i
         end).
    destruct (Ascii.eqb c dquote).
    { destruct (scanstring r (S i) i) as [k rest' j' |] eqn:E; [| done].
      intros [= <- <- _]. split; [| done].
      apply consumed_cons. by eapply scanstring_consumed. }
    destruct (Ascii.eqb_spec c "{") as [-> | _].
    { destruct (skip_ws r (S i)) as [s1 i1] eqn:Ews.
      destruct (skip_ws_spec r (S i)) as (w & _ & Hw). rewrite Ews in Hw. simpl in Hw.
      destruct (head_is s1 "}") eqn:E1.
      - intros [= <- <- _]. apply head_is_cons in E1.
        assert (String "{" r = "{" ++ w ++ "}" ++ drop_str 1 s1) as Heq.
        { rewrite Hw. rewrite E1 at 1. reflexivity. }
        split; [| by eexists]. rewrite Heq.
        exists ("{" ++ w ++ "}"). by rewrite !app_str_assoc.
      - destruct (head_is s1 dquote) eqn:E2; [| done]. intros H.
        apply IH2 in H as [c' Hc']. apply head_is_cons in E2.
        assert (String "{" r = "{" ++ (w ++ String dquote c') ++ "}" ++ rest) as Heq.
        { rewrite Hw. rewrite E2 at 1. rewrite Hc'.
          rewrite !app_str_assoc. reflexivity. }
        split; [| by eexists]. rewrite Heq.
        exists ("{" ++ (w ++ String dquote c') ++ "}"). by rewrite !app_str_assoc. }
    destruct (Ascii.eqb c "[").
    { destruct (skip_ws r (S i)) as [s1 i1] eqn:Ews. apply skip_ws_as in Ews.
      destruct (head_is s1 "]") eqn:E1.
      - intros [= <- <- _]. split; [| done].
        apply consumed_cons. eapply consumed_trans; [exact Ews |].
        apply (drop_str_consumed 1).
      - intros H. apply IH3 in H as [Hc Hv]. split; [| by rewrite Hv].
        apply consumed_cons. by eapply consumed_trans. }
    destruct (String.prefix "null" _).
    { intros [= <- <- _]. split; [apply (drop_str_consumed 4 (String c r)) | done]. }
    destruct (String.prefix "true" _).
    { intros [= <- <- _]. split; [apply (drop_str_consumed 4 (String c r)) | done]. }
    destruct (String.prefix "false" _).
    { intros [= <- <- _]. split; [apply (drop_str_consumed 5 (String c r)) | done]. }
    destruct (match_number (String c r)) as [[[n k] rest'] |] eqn:En.
    + intros [= <- <- _]. split; [by eapply match_number_consumed | done].
    + by destruct (_ || _).
  - intros acc s i v rest j.
    change (object_items (S fuel) acc s i) with
      (match scanstring s i (pred i) with
       | Failed m p => Failed m p
       | Scanned key s1 i1 =>
           let '(s2, i2) := skip_ws s1 i1 in
           if head_is s2 ":" then
             let '(s3, i3) := skip_ws (drop_str 1 s2) (S i2) in
             match scan_once fuel s3 i3 with
             | Failed m p => Failed m p
             | Scanned value s4 i4 =>
                 let acc := <[key := value]> acc in
                 let '(s5, i5) := skip_ws s4 i4 in
                 if head_is s5 "}" then Scanned (JObj acc) (drop_str 1 s5) (S i5)
                 else if head_is s5 "," then
                   let '(s6, i6) := skip_ws (drop_str 1 s5) (S i5) in
                   if head_is s6 dquote then object_items fuel acc (drop_str 1 s6) (S i6)
                   else Failed "Expecting property name enclosed in double quotes" i6
                 else Failed "Expecting ',' delimiter" i5
             end
           else Failed "Expecting ':' delimiter" i2
       end).
    destruct (scanstring s i (pred i)) as [key s1 i1 |] eqn:Ek; [| done].
    apply scanstring_consumed in Ek.
    destruct (skip_ws s1 i1) as [s2 i2] eqn:E2. apply skip_ws_as in E2.
    destruct (head_is s2 ":") eqn:Hcolon; [| done].
    apply head_is_consumed in Hcolon.
    destruct (skip_ws (drop_str 1 s2) (S i2)) as [s3 i3] eqn:E3. apply skip_ws_as in E3.
    destruct (scan_once fuel s3 i3) as [value s4 i4 |] eqn:Ev; [| done].
    apply IH1 in Ev as [Ev _].
    destruct (skip_ws s4 i4) as [s5 i5] eqn:E5. apply skip_ws_as in E5.
    assert (consumed s s5) as Hs5 by eauto 10 using consumed_trans.
    destruct (head_is s5 "}") eqn:Hclose.
    + intros [= _ <- _]. apply head_is_cons in Hclose. destruct Hs5 as [p Hp].
      exists p. rewrite Hp. by rewrite Hclose at 1.
    + destruct (head_is s5 ",") eqn:Hcomma; [| done].
      apply head_is_consumed in Hcomma.
      destruct (skip_ws (drop_str 1 s5) (S i5)) as [s6 i6] eqn:E6. apply skip_ws_as in E6.
      destruct (head_is s6 dquote) eqn:Hq; [| done]. apply head_is_consumed in Hq.
      intros H. apply IH2 in H as [c' Hc'].
      assert (consumed s (drop_str 1 s6)) as [p' Hp']
        by eauto 10 using consumed_trans.
      exists (p' ++ c'). rewrite Hp', Hc'. by rewrite app_str_assoc.
  - intros acc s i v rest j.
    change (array_items (S fuel) acc s i) with
      (match scan_once fuel s i with
       | Failed m p => Failed m p
       | Scanned value s1 i1 =>
           let acc := (acc ++ [value])%list in
           let '(s2, i2) := skip_ws s1 i1 in
           if head_is s2 "]" then Scanned (JArr acc) (drop_str 1 s2) (S i2)
           else if head_is s2 "," then
             let '(s3, i3) := skip_ws (drop_str 1 s2) (S i2) in array_items fuel acc s3 i3
           else Failed "Expecting ',' delimiter" i2
       end).
    destruct (scan_once fuel s i) as [value s1 i1 |] eqn:Ev; [| done].
    apply IH1 in Ev as [Ev _].
    destruct (skip_ws s1 i1) as [s2 i2] eqn:E2. apply skip_ws_as in E2.
    destruct (head_is s2 "]") eqn:Hclose.
    + apply head_is_consumed in Hclose.
      intros [= <- <- _]. split; [| done]. eauto 10 using consumed_trans.
    + destruct (head_is s2 ",") eqn:Hcomma; [| done]. apply head_is_consumed in Hcomma.
      destruct (skip_ws (drop_str 1 s2) (S i2)) as [s3 i3] eqn:E3. apply skip_ws_as in E3.
      intros H. apply IH3 in H as [Hc Hv]. split; [| done].
      eauto 10 using consumed_trans.
Qed.

(** A text that decodes to an object is a brace-delimited body with
    optional whitespace around it. *)
Lemma json_loads_object_text (payload : string) (m : gmap string json) :
  json_loads payload = Ok (JObj m) → json_object_text payload.
Proof.
  unfold json_loads.
  destruct (skip_ws_spec payload 0) as (w1 & Hw1 & Hp).
  destruct (skip_ws payload 0) as [s0 i0]. simpl in Hp.
  destruct (scan_once _ s0 i0) as [v rest i |] eqn:Es; [| done].
  destruct (skip_ws_spec rest i) as (w2 & Hw2 & Hr).
  destruct (skip_ws rest i) as [rest' i']. simpl in Hr.
  destruct rest'; [| done]. intros [= ->].
  destruct (scanners_consumed (2 * String.length payload + 2)) as (H1 & _ & _).
  destruct (H1 _ _ _ _ _ Es) as [_ Hobj].
  destruct (Hobj eq_refl) as [body Hbody].
  exists w1, body, w2. repeat split; try done.
  rewrite Hp, Hbody, Hr. by rewrite app_str_nil_r.
Qed.

Section Extractor.

Variable repr : json → string.
Variable loads : string → result json.

(** The extractor is the parser on the text of steps 1-5, with a parser
    failure re-raised. *)
Lemma parse_gemini_json_text (raw : string) :
  parse_gemini_json repr loads raw
  = try_except (loads (json_text raw))
      (fun e => Raise (ValueError ("Failed to parse Gemini JSON: " ++ py_str repr e))).
Proof. reflexivity. Qed.

(** Without braces the text passes steps 4 and 5 unchanged. *)
Lemma brace_span_no_braces (text : string) :
  find text "{" = -1 → rfind text "}" = -1 → brace_span text = text.
Proof. intros H1 H2. unfold brace_span. rewrite H1. simpl. by rewrite H2. Qed.

(** C7, as amended.  The extractor fails exactly when the JSON parser
    fails on the text of steps 1-5, and then with the parser's diagnostic
    in its message; otherwise it returns the parsed value.  A text in
    which no brace is found is handed to the parser whole, after the
    stripping of steps 1-3: the extractor itself does not reject it. *)
Theorem extractor_fails_with_parser (raw : string) :
  (∀ e, parse_gemini_json repr loads raw = Raise e
        ↔ ∃ e0, loads (json_text raw) = Raise e0
                ∧ e = ValueError ("Failed to parse Gemini JSON: " ++ py_str repr e0))
  ∧ (∀ v, parse_gemini_json repr loads raw = Ok v ↔ loads (json_text raw) = Ok v)
  ∧ (find (without_fence (strip raw)) "{" = -1 →
     rfind (without_fence (strip raw)) "}" = -1 →
     json_text raw = without_fence (strip raw)).
Proof.
  rewrite parse_gemini_json_text.
  split; [| split].
  - intros e. destruct (loads (json_text raw)) as [v | e0]; simpl.
    + split; [done | by intros (? & ? & _)].
    + split.
      * intros [= <-]. by exists e0.
      * intros (e1 & [= <-] & ->). done.
  - intros v. destruct (loads (json_text raw)) as [v0 | e0]; simpl; [done |].
    split; intros H; discriminate H.
  - apply brace_span_no_braces.
Qed.

(** For the text of an object the fenced and the bare payload hand the
    parser the same text, from the opening to the closing brace. *)
Lemma fenced_object_text (payload : string) :
  json_object_text payload → json_text (fenced payload) = json_text payload.
Proof.
  intros (w1 & body & w2 & H1 & H2 & ->).
  by rewrite (json_text_fenced w1 body w2 H1 H2), (json_text_bare w1 body w2 H1 H2).
Qed.

(** C8.  For every payload that is a valid JSON object, the extractor
    returns on the payload wrapped in a fenced JSON block what it returns
    on the bare payload, whichever parser it calls. *)
Theorem fenced_payload_same_value (payload : string) (m : gmap string json) :
  json_loads payload = Ok (JObj m) →
  parse_gemini_json repr loads (fenced payload) = parse_gemini_json repr loads payload.
Proof.
  intros Hvalid. rewrite !parse_gemini_json_text.
  rewrite fenced_object_text; [reflexivity |].
  by eapply json_loads_object_text.
Qed.

End Extractor.

Lemma extractor_fails_with_parser_witness :
  json_text "42" = "42"
  ∧ parse_gemini_json sample_repr json_loads "Sure! Here is the result"
    = Raise (ValueError ("Failed to parse Gemini JSON: "
                         ++ "Expecting value: line 1 column 1 (char 0)")).
Proof.
  destruct (extractor_fails_with_parser sample_repr json_loads "42") as (_ & _ & H42).
  destruct (extractor_fails_with_parser sample_repr json_loads "Sure! Here is the result")
    as (He & _ & _).
  split.
  - apply H42; reflexivity.
  - apply He. eexists. split; [vm_compute; reflexivity | reflexivity].
Defined.

(** C7 as stated fails: the text 42 holds no brace, and the extractor
    returns the number 42. *)
Lemma text_without_braces_is_parsed :
  find (without_fence (strip "42")) "{" = -1
  ∧ rfind (without_fence (strip "42")) "}" = -1
  ∧ parse_gemini_json sample_repr json_loads "42" = Ok (int 42).
Proof. repeat split. Qed.

(** Other texts without braces that the parser accepts. *)
Example bare_values_are_parsed (repr : json → string) :
  parse_gemini_json repr json_loads "null" = Ok JNull
  ∧ parse_gemini_json repr json_loads "[1, 2]" = Ok (JArr [int 1; int 2]).
Proof. split; reflexivity. Qed.

(** A fenced object with whitespace around it, and the same object bare. *)
Lemma fenced_payload_same_value_witness :
  let payload := nl ++ "  {" ++ q "is_valid" ++ ": true}" ++ nl in
  parse_gemini_json sample_repr json_loads (fenced payload)
  = parse_gemini_json sample_repr json_loads payload.
Proof.
  intros payload.
  apply (fenced_payload_same_value sample_repr json_loads payload
           {[ "is_valid" := JBool true ]}).
  vm_compute. reflexivity.
Defined.

Example fenced_payload_value :
  parse_gemini_json sample_repr json_loads
    (fenced (nl ++ "  {" ++ q "is_valid" ++ ": true}" ++ nl))
  = Ok (JObj {[ "is_valid" := JBool true ]}).
Proof. vm_compute. reflexivity. Qed.

(** ** The tariff store and the request handler *)

Section Handler.

Variable TARIFFS : json.
Variable repr : json → string.
Variable loads : string → result json.
Variable generate_content : string → result string.
Variable fromisoformat : string → result datetime.

(** A configured entry is returned as it is. *)
Lemma get_tariff_configured (state area vehicle_type : string) (entry : json) :
  lookup_path TARIFFS state area vehicle_type = Some entry →
  get_tariff TARIFFS (JStr state) (JStr area) (JStr vehicle_type) = Ok entry.
Proof.
  unfold lookup_path, get_tariff. intros H.
  destruct TARIFFS as [| | | | | states]; try discriminate H. simpl in *.
  destruct (states !! state) as [[| | | | | areas] |]; try discriminate H. simpl in *.
  destruct (areas !! area) as [[| | | | | vehicles] |]; try discriminate H. simpl in *.
  by rewrite H.
Qed.

(** C9.  In a tariff table of the nested shape, a triple whose key path
    is missing at the state, the area or the vehicle type makes
    [get_tariff] return [None]; no exception leaves it. *)
Theorem get_tariff_unconfigured (state area vehicle_type : string) :
  nested_mapping TARIFFS →
  lookup_path TARIFFS state area vehicle_type = None →
  get_tariff TARIFFS (JStr state) (JStr area) (JStr vehicle_type) = Ok JNull.
Proof.
  intros (states & -> & Hstates) H. unfold lookup_path, get_tariff in *. simpl in *.
  destruct (states !! state) as [by_state |] eqn:Es; [| reflexivity].
  destruct (Hstates _ _ Es) as (areas & -> & Hareas). simpl in *.
  destruct (areas !! area) as [by_area |] eqn:Ea; [| reflexivity].
  destruct (Hareas _ _ Ea) as (vehicles & ->). simpl in *.
  by rewrite H.
Qed.

(** The handler answers 400 when the lookup result is falsy. *)
Lemma handle_falsy_tariff (data state area vehicle_type tariff : json) (prompt : string) :
  reaches_lookup repr loads generate_content fromisoformat
    data state area vehicle_type →
  build_user_prompt repr data = Ok prompt →
  get_tariff TARIFFS state area vehicle_type = Ok tariff →
  truthy tariff = false →
  handle TARIFFS repr loads generate_content fromisoformat system_prompt prompt
  = Ok (jsonify (error_body (JStr ("No tariff found for " ++ fmt repr state ++ " / "
                                   ++ fmt repr area ++ " / " ++ fmt repr vehicle_type)))
                400).
Proof.
  intros [prompt' reply parsed validation is_valid inputs sd ed start_dt end_dt
            Hb Hc Hp Hv Hi Ht Hin Hsd Hsp Hed Hep Hs Ha Hvt] Hb' Hg Hf.
  rewrite Hb in Hb'. injection Hb' as <-.
  unfold handle. rewrite Hc. simpl. rewrite Hp. simpl. rewrite Hv. simpl.
  rewrite Hi. simpl. rewrite Ht. simpl. rewrite Hin. simpl. rewrite Hsd. simpl.
  rewrite Hsp. simpl. rewrite Hed. simpl. rewrite Hep. simpl.
  rewrite Hs, Ha, Hvt. simpl. rewrite Hg. simpl. rewrite Hf. reflexivity.
Qed.

(** C10.  When the table holds an entry for the triple and the entry is
    falsy, the handler answers HTTP 400 with the message "No tariff found
    for state / area / vehicle_type": the answer to an unconfigured
    triple, for which the lookup gives [None]. *)
Theorem falsy_tariff_is_not_found (data : json) (state area vehicle_type : string)
    (entry : json) :
  reaches_lookup repr loads generate_content fromisoformat
    data (JStr state) (JStr area) (JStr vehicle_type) →
  lookup_path TARIFFS state area vehicle_type = Some entry →
  truthy entry = false →
  predict_parking_price TARIFFS repr loads generate_content fromisoformat data
  = Ok {| status := 400;
          body := JObj {[ "error" := JStr ("No tariff found for " ++ state ++ " / "
                                           ++ area ++ " / " ++ vehicle_type) ]} |}.
Proof.
  intros Hr Hl Hf. pose proof Hr as [prompt ? ? ? ? ? ? ? ? ? Hb _ _ _ _ _ _ _ _ _ _ _ _ _].
  unfold predict_parking_price. rewrite Hb. simpl.
  rewrite (handle_falsy_tariff data _ _ _ entry prompt Hr Hb
             (get_tariff_configured _ _ _ _ Hl) Hf).
  reflexivity.
Qed.

(** The same answer where the triple is not configured. *)
Lemma unconfigured_tariff_is_not_found (data : json) (state area vehicle_type : string) :
  reaches_lookup repr loads generate_content fromisoformat
    data (JStr state) (JStr area) (JStr vehicle_type) →
  nested_mapping TARIFFS →
  lookup_path TARIFFS state area vehicle_type = None →
  predict_parking_price TARIFFS repr loads generate_content fromisoformat data
  = Ok {| status := 400;
          body := JObj {[ "error" := JStr ("No tariff found for " ++ state ++ " / "
                                           ++ area ++ " / " ++ vehicle_type) ]} |}.
Proof.
  intros Hr Hn Hl. pose proof Hr as [prompt ? ? ? ? ? ? ? ? ? Hb _ _ _ _ _ _ _ _ _ _ _ _ _].
  unfold predict_parking_price. rewrite Hb. simpl.
  rewrite (handle_falsy_tariff data _ _ _ JNull prompt Hr Hb
             (get_tariff_unconfigured _ _ _ Hn Hl) eq_refl).
  reflexivity.
Qed.

(** C6, as amended.  Once the user prompt is built, every exception
    raised in the [try] block is caught: the handler returns HTTP 500
    with the exception's text in the [error] field of the JSON body. *)
Theorem exception_in_try_block_is_500 (data : json) (prompt : string) (e : exn) :
  build_user_prompt repr data = Ok prompt →
  handle TARIFFS repr loads generate_content fromisoformat system_prompt prompt
  = Raise e →
  predict_parking_price TARIFFS repr loads generate_content fromisoformat data
  = Ok {| status := 500; body := JObj {[ "error" := JStr (py_str repr e) ]} |}.
Proof.
  intros Hb He. unfold predict_parking_price. rewrite Hb. simpl. by rewrite He.
Qed.

(** With the prompt built, no exception leaves the handler. *)
Lemma handler_returns (data : json) (prompt : string) :
  build_user_prompt repr data = Ok prompt →
  ∃ r, predict_parking_price TARIFFS repr loads generate_content fromisoformat data
       = Ok r.
Proof.
  intros Hb. unfold predict_parking_price. rewrite Hb. simpl.
  destruct (handle _ _ _ _ _ _ _); simpl; eauto.
Qed.

(** An exception raised while the prompt is built leaves the handler. *)
Lemma exception_in_prompt_escapes (data : json) (e : exn) :
  build_user_prompt repr data = Raise e →
  predict_parking_price TARIFFS repr loads generate_content fromisoformat data
  = Raise e.
Proof. intros Hb. unfold predict_parking_price. by rewrite Hb. Qed.

End Handler.

Lemma table_of_nested (rule : json) : nested_mapping (table_of rule).
Proof.
  eexists. split; [reflexivity |].
  intros s by_state [_ <-]%lookup_singleton_Some.
  eexists. split; [reflexivity |].
  intros a by_area [_ <-]%lookup_singleton_Some. by eexists.
Qed.

(** No rule is configured for New York. *)
Lemma get_tariff_unconfigured_witness :
  get_tariff sample_tariffs (JStr "NY") (JStr "downtown") (JStr "car") = Ok JNull.
Proof.
  apply get_tariff_unconfigured; [apply table_of_nested | reflexivity].
Defined.

(** The path can be missing at the area or at the vehicle type as well. *)
Example get_tariff_missing_levels :
  get_tariff sample_tariffs (JStr "CA") (JStr "airport") (JStr "car") = Ok JNull
  ∧ get_tariff sample_tariffs (JStr "CA") (JStr "downtown") (JStr "truck") = Ok JNull.
Proof. split; reflexivity. Qed.

(** Only [KeyError] is caught: a table that is not of the nested shape
    makes the lookup raise. *)
Example get_tariff_malformed_table :
  get_tariff (JObj {[ "CA" := int 5 ]}) (JStr "CA") (JStr "downtown") (JStr "car")
  = Raise (TypeError "'int' object is not subscriptable").
Proof. reflexivity. Qed.

Lemma sample_reaches_lookup (generate_content : string → result string) :
  generate_content = sample_provider →
  reaches_lookup sample_repr json_loads generate_content sample_fromisoformat
    sample_request (JStr "CA") (JStr "downtown") (JStr "car").
Proof.
  intros ->. econstructor.
  - vm_compute; reflexivity.
  - vm_compute; reflexivity.
  - vm_compute; reflexivity.
  - vm_compute; reflexivity.
  - vm_compute; reflexivity.
  - vm_compute; reflexivity.
  - vm_compute; reflexivity.
  - vm_compute; reflexivity.
  - vm_compute; reflexivity.
  - vm_compute; reflexivity.
  - vm_compute; reflexivity.
  - vm_compute; reflexivity.
  - vm_compute; reflexivity.
  - vm_compute; reflexivity.
Qed.

(** The rule configured for CA / downtown / car is the empty mapping. *)
Lemma falsy_tariff_is_not_found_witness :
  predict_parking_price empty_rule_tariffs sample_repr json_loads sample_provider
    sample_fromisoformat sample_request
  = Ok {| status := 400;
          body := JObj {[ "error" := JStr "No tariff found for CA / downtown / car" ]} |}.
Proof.
  apply (falsy_tariff_is_not_found empty_rule_tariffs sample_repr json_loads
           sample_provider sample_fromisoformat sample_request
           "CA" "downtown" "car" (JObj ∅)).
  - by apply sample_reaches_lookup.
  - reflexivity.
  - reflexivity.
Defined.

(** The provider fails: the handler answers 500 with its message. *)
Lemma exception_in_try_block_is_500_witness :
  predict_parking_price sample_tariffs sample_repr json_loads failing_provider
    sample_fromisoformat sample_request
  = Ok {| status := 500; body := JObj {[ "error" := JStr "429 quota exceeded" ]} |}.
Proof.
  eapply (exception_in_try_block_is_500 sample_tariffs sample_repr json_loads
            failing_provider sample_fromisoformat sample_request _
            (OtherError "ResourceExhausted" "429 quota exceeded")).
  - reflexivity.
  - reflexivity.
Defined.

(** C6 as stated fails: a request body without [vehicle_type] raises
    [KeyError] while the prompt is built, before the [try] block, and the
    exception leaves the handler instead of becoming a response. *)
Lemma missing_field_escapes_handler :
  predict_parking_price sample_tariffs sample_repr json_loads sample_provider
    sample_fromisoformat incomplete_request
  = Raise (KeyError (JStr "vehicle_type")).
Proof. reflexivity. Qed.

(** End-to-end scenario A: 90 minutes on a weekday bill 2 hours at 2 an
    hour. *)
Example scenario_a :
  ∃ r price, predict_parking_price sample_tariffs sample_repr json_loads sample_provider
               sample_fromisoformat sample_request = Ok r
    ∧ status r = 200
    ∧ lookup_key (body r) "price" = Some (JNum price) ∧ (num_Q price == 4)%Q
    ∧ lookup_key (body r) "tariff" = Some (JObj downtown_car).
Proof.
  do 2 eexists. split; [vm_compute; reflexivity |]. repeat split.
Qed.

(** * Further properties *)

(** ** The pricing engine *)


Lemma qmin_spec (a b : Q) : (qmin a b <= a)%Q ∧ (qmin a b <= b)%Q.
Proof.
  unfold qmin. destruct (Qle_bool a b) eqn:E.
  - apply Qle_bool_iff in E. lra.
  - apply not_true_iff_false in E. rewrite Qle_bool_iff in E. lra.
Qed.
































(** A tariff that is not a dict has no [get]: for timestamps that can
    be subtracted, [compute_price] raises [AttributeError]. *)
Theorem tariff_must_be_dict (s e : datetime) (tariff : json) (d : timedelta) :
  datetime_sub e s = Ok d → is_object tariff = false →
  compute_price s e tariff
  = Raise (AttributeError ("'" ++ type_name tariff ++ "' object has no attribute 'get'")).
Proof.
  intros Hd Ht. unfold compute_price. rewrite Hd. simpl.
  by destruct tariff.
Qed.

Lemma tariff_must_be_dict_witness :
  compute_price (naive 2024 1 5 10 0) (naive 2024 1 5 11 30) (int 5)
  = Raise (AttributeError "'int' object has no attribute 'get'").
Proof.
  apply (tariff_must_be_dict (naive 2024 1 5 10 0) (naive 2024 1 5 11 30) (int 5)
           {| days := 0; seconds := 5400; microseconds := 0 |}); reflexivity.
Defined.

(** X7.  A naive and an aware timestamp cannot be subtracted:
    [compute_price] raises [TypeError] before it looks at the tariff. *)
Theorem mixed_timestamps_raise (s e : datetime) (tariff : json) :
  is_aware s ≠ is_aware e →
  compute_price s e tariff
  = Raise (TypeError "can't subtract offset-naive and offset-aware datetimes").
Proof.
  intros H. unfold compute_price, datetime_sub, is_aware in *.
  by destruct (utcoffset s) as [os |], (utcoffset e) as [oe |].
Qed.

(** A naive start and an end at UTC+1. *)
Lemma mixed_timestamps_raise_witness :
  compute_price (naive 2024 1 5 10 0) aware_noon (JObj downtown_car)
  = Raise (TypeError "can't subtract offset-naive and offset-aware datetimes").
Proof. apply mixed_timestamps_raise. vm_compute. discriminate. Defined.

(** ** The tariff store *)

(** A dict subscripted by a hashable key. *)
Lemma getitem_hashable (m : gmap string json) (key : json) :
  hashable key = true →
  getitem (JObj m) key
  = match as_str key ≫= (m !!.) with
    | Some v => Ok v
    | None => Raise (KeyError key)
    end.
Proof. intros H. by destruct key. Qed.

Section Store.

Variable TARIFFS : json.

(** X8.  On a table of the nested shape and keys of any hashable kind,
    [get_tariff] never raises: it returns the entry stored under the three
    keys when they are strings and the path exists, and [None] otherwise. *)
Theorem get_tariff_is_lookup (state area vehicle_type : json) :
  nested_mapping TARIFFS →
  hashable state = true → hashable area = true → hashable vehicle_type = true →
  get_tariff TARIFFS state area vehicle_type
  = Ok (default JNull (lookup_keys TARIFFS state area vehicle_type)).
Proof.
  intros (states & -> & Hstates) Hs Ha Hv. unfold get_tariff, lookup_keys, lookup_path.
  rewrite (getitem_hashable states state Hs).
  destruct (as_str state) as [s |]; [simpl | reflexivity].
  destruct (states !! s) as [by_state |] eqn:Es; simpl;
    [| by destruct (as_str area), (as_str vehicle_type)].
  destruct (Hstates _ _ Es) as (areas & -> & Hareas).
  rewrite (getitem_hashable areas area Ha).
  destruct (as_str area) as [a |]; [simpl | reflexivity].
  destruct (areas !! a) as [by_area |] eqn:Ea; simpl;
    [| by destruct (as_str vehicle_type)].
  destruct (Hareas _ _ Ea) as (vehicles & ->).
  rewrite (getitem_hashable vehicles vehicle_type Hv).
  destruct (as_str vehicle_type) as [v |]; [simpl | reflexivity].
  by destruct (vehicles !! v).
Qed.

(** X9.  A table that is not a mapping makes every lookup by a string
    state raise [TypeError]: only [KeyError] is caught. *)
Theorem get_tariff_table_not_mapping (state : string) (area vehicle_type : json) :
  is_object TARIFFS = false →
  ∃ msg, get_tariff TARIFFS (JStr state) area vehicle_type = Raise (TypeError msg).
Proof.
  intros H. unfold get_tariff. destruct TARIFFS; try done; simpl; by eexists.
Qed.

(** X10.  A state that is a list or a dict cannot be a key: on a table that
    is a mapping the lookup raises [TypeError]. *)
Theorem get_tariff_unhashable_state (state area vehicle_type : json) :
  is_object TARIFFS = true → hashable state = false →
  get_tariff TARIFFS state area vehicle_type
  = Raise (TypeError ("unhashable type: '" ++ type_name state ++ "'")).
Proof.
  intros HT Hs. unfold get_tariff. destruct TARIFFS; try done.
  by destruct state.
Qed.

End Store.

Lemma get_tariff_is_lookup_witness :
  get_tariff sample_tariffs (JStr "CA") (JStr "downtown") (JStr "car") = Ok (JObj downtown_car)
  ∧ get_tariff sample_tariffs (JStr "CA") (int 7) (JStr "car") = Ok JNull.
Proof.
  split.
  - apply (get_tariff_is_lookup sample_tariffs (JStr "CA") (JStr "downtown") (JStr "car"));
      [apply table_of_nested | reflexivity ..].
  - apply (get_tariff_is_lookup sample_tariffs (JStr "CA") (int 7) (JStr "car"));
      [apply table_of_nested | reflexivity ..].
Defined.

(** tariffs.json holds a list. *)
Lemma get_tariff_table_not_mapping_witness :
  ∃ msg, get_tariff (JArr [JObj downtown_car]) (JStr "CA") (JStr "downtown") (JStr "car")
         = Raise (TypeError msg).
Proof. apply get_tariff_table_not_mapping. reflexivity. Defined.

Lemma get_tariff_unhashable_state_witness :
  get_tariff sample_tariffs (JArr [JStr "CA"]) (JStr "downtown") (JStr "car")
  = Raise (TypeError "unhashable type: 'list'").
Proof.
  apply (get_tariff_unhashable_state sample_tariffs (JArr [JStr "CA"])); reflexivity.
Defined.

(** ** The request handler *)

Section Requests.

Variable TARIFFS : json.
Variable repr : json → string.
Variable loads : string → result json.
Variable generate_content : string → result string.
Variable fromisoformat : string → result datetime.

(** The responses of the [try] block are the 400s and the 200. *)
Lemma handle_status (system user : string) (r : response) :
  handle TARIFFS repr loads generate_content fromisoformat system user = Ok r →
  status r = 200 ∨ status r = 400.
Proof.
  unfold handle.
  repeat match goal with
         | |- context [bind ?x _] => destruct x; simpl; try done
         | |- context [if ?b then _ else _] => destruct b; simpl
         end;
    intros [= <-]; auto.
Qed.

(** X11.  With the prompt built, the handler always answers, and with
    status 200, 400 or 500; an exception leaves it exactly when building
    the prompt raises it. *)
Theorem handler_answers_or_prompt_fails (data : json) :
  (∀ prompt, build_user_prompt repr data = Ok prompt →
     ∃ r, predict_parking_price TARIFFS repr loads generate_content fromisoformat data
          = Ok r
          ∧ (status r = 200 ∨ status r = 400 ∨ status r = 500))
  ∧ (∀ e, predict_parking_price TARIFFS repr loads generate_content fromisoformat data
          = Raise e
          ↔ build_user_prompt repr data = Raise e).
Proof.
  unfold predict_parking_price. split.
  - intros prompt ->. simpl.
    destruct (handle _ _ _ _ _ _ _) as [r | e] eqn:E; simpl.
    + apply handle_status in E. exists r. split; [done | tauto].
    + eexists. split; [reflexivity |]. simpl. tauto.
  - intros e. destruct (build_user_prompt repr data) as [prompt | e']; simpl.
    + destruct (handle _ _ _ _ _ _ _); simpl; split; intros H; discriminate H.
    + split; intros [= ->]; reflexivity.
Qed.

(** X12.  When the provider's answer says the request is not valid, the
    handler answers 400 with the answer's list of errors: no timestamp is
    parsed and no tariff looked up. *)
Theorem invalid_request_is_400 (data : json) (prompt reply : string)
    (parsed validation is_valid errors : json) :
  build_user_prompt repr data = Ok prompt →
  call_gemini generate_content system_prompt prompt = Ok reply →
  parse_gemini_json repr loads reply = Ok parsed →
  getitem parsed (JStr "validation") = Ok validation →
  getitem validation (JStr "is_valid") = Ok is_valid →
  truthy is_valid = false →
  getitem validation (JStr "errors") = Ok errors →
  predict_parking_price TARIFFS repr loads generate_content fromisoformat data
  = Ok {| status := 400; body := JObj {[ "error" := errors ]} |}.
Proof.
  intros Hb Hc Hp Hv Hi Hf He. unfold predict_parking_price. rewrite Hb. simpl.
  unfold handle. rewrite Hc. simpl. rewrite Hp. simpl. rewrite Hv. simpl.
  rewrite Hi. simpl. rewrite Hf. simpl. rewrite He. reflexivity.
Qed.

(** X13.  When the request is extracted, the lookup gives a truthy tariff
    and the price is computed, the handler answers 200 with the inputs,
    the tariff and the price. *)
Theorem priced_request_is_200 (data inputs : json) (start_dt end_dt : datetime)
    (state area vehicle_type tariff : json) (price : num) :
  extracts repr loads generate_content fromisoformat
    data inputs start_dt end_dt state area vehicle_type →
  get_tariff TARIFFS state area vehicle_type = Ok tariff →
  truthy tariff = true →
  compute_price start_dt end_dt tariff = Ok price →
  predict_parking_price TARIFFS repr loads generate_content fromisoformat data
  = Ok {| status := 200;
          body := JObj (<["inputs" := inputs]>
                        (<["tariff" := tariff]>
                        (<["price" := JNum price]> ∅))) |}.
Proof.
  intros [prompt reply parsed validation is_valid sd ed
            Hb Hc Hp Hv Hi Ht Hin Hsd Hsp Hed Hep Hs Ha Hvt] Hg Htr Hpr.
  unfold predict_parking_price. rewrite Hb. simpl.
  unfold handle. rewrite Hc. simpl. rewrite Hp. simpl. rewrite Hv. simpl.
  rewrite Hi. simpl. rewrite Ht. simpl. rewrite Hin. simpl. rewrite Hsd. simpl.
  rewrite Hsp. simpl. rewrite Hed. simpl. rewrite Hep. simpl.
  rewrite Hs, Ha, Hvt. simpl. rewrite Hg. simpl. rewrite Htr. simpl.
  rewrite Hpr. reflexivity.
Qed.

(** X14.  A stored rule that is truthy but not a mapping never gives a
    price: the handler answers 500. *)
Theorem rule_not_mapping_is_500 (data inputs : json) (start_dt end_dt : datetime)
    (state area vehicle_type tariff : json) :
  extracts repr loads generate_content fromisoformat
    data inputs start_dt end_dt state area vehicle_type →
  get_tariff TARIFFS state area vehicle_type = Ok tariff →
  truthy tariff = true → is_object tariff = false →
  ∃ msg, predict_parking_price TARIFFS repr loads generate_content fromisoformat data
         = Ok {| status := 500; body := JObj {[ "error" := JStr msg ]} |}.
Proof.
  intros [prompt reply parsed validation is_valid sd ed
            Hb Hc Hp Hv Hi Ht Hin Hsd Hsp Hed Hep Hs Ha Hvt] Hg Htr Hobj.
  unfold predict_parking_price. rewrite Hb. simpl.
  unfold handle. rewrite Hc. simpl. rewrite Hp. simpl. rewrite Hv. simpl.
  rewrite Hi. simpl. rewrite Ht. simpl. rewrite Hin. simpl. rewrite Hsd. simpl.
  rewrite Hsp. simpl. rewrite Hed. simpl. rewrite Hep. simpl.
  rewrite Hs, Ha, Hvt. simpl. rewrite Hg. simpl. rewrite Htr. simpl.
  unfold compute_price. destruct (datetime_sub end_dt start_dt) as [d | e]; simpl.
  - destruct tariff; try done; simpl; by eexists.
  - by eexists.
Qed.

(** A dict body: the prompt is built exactly when the seven fields are there. *)
Lemma build_user_prompt_fields (m : gmap string json) :
  (∃ prompt, build_user_prompt repr (JObj m) = Ok prompt)
  ↔ ∀ k, k ∈ required_fields → is_Some (m !! k).
Proof.
  unfold build_user_prompt, required_fields. simpl. split.
  - intros [prompt H] k Hk.
    repeat match type of H with
           | context [m !! ?f] => destruct (m !! f) eqn:?; simpl in H; [| done]
           end.
    repeat (apply elem_of_cons in Hk as [-> | Hk]; [by eexists |]).
    by apply elem_of_nil in Hk.
  - intros H.
    repeat match goal with
           | |- context [m !! ?f] =>
               destruct (H f ltac:(set_solver)) as [? ->]; simpl
           end.
    by eexists.
Qed.

(** X15.  For a request body that is a dict, the prompt is built exactly
    when the body holds all seven fields; otherwise the handler lets a
    [KeyError] out that names a missing field. *)
Theorem request_needs_all_fields (m : gmap string json) :
  ((∃ prompt, build_user_prompt repr (JObj m) = Ok prompt)
   ↔ ∀ k, k ∈ required_fields → is_Some (m !! k))
  ∧ (∀ e, predict_parking_price TARIFFS repr loads generate_content fromisoformat (JObj m)
          = Raise e →
          ∃ k, k ∈ required_fields ∧ m !! k = None ∧ e = KeyError (JStr k)).
Proof.
  split; [apply build_user_prompt_fields |].
  intros e. unfold predict_parking_price.
  destruct (build_user_prompt repr (JObj m)) as [prompt | e'] eqn:E; simpl.
  { destruct (handle _ _ _ _ _ _ _); simpl; done. }
  intros [= ->]. revert E. unfold build_user_prompt, required_fields. simpl.
  repeat match goal with
         | |- context [m !! ?f] =>
             destruct (m !! f) eqn:?; simpl;
             [| intros [= <-]; exists f; split; [set_solver | done]]
         end.
  done.
Qed.

End Requests.

Section Fencing.

Variable TARIFFS : json.
Variable repr : json → string.
Variable loads : string → result json.
Variable generate_content : string → result string.
Variable fromisoformat : string → result datetime.

(** X16.  If every reply of the provider is a valid JSON object, the
    handler's answer does not change when the provider wraps its replies in
    a fenced JSON block. *)
Theorem fencing_does_not_change_response (data : json) :
  (∀ prompt reply, generate_content prompt = Ok reply →
     ∃ m, json_loads reply = Ok (JObj m)) →
  predict_parking_price TARIFFS repr loads (fence_replies generate_content)
    fromisoformat data
  = predict_parking_price TARIFFS repr loads generate_content fromisoformat data.
Proof.
  intros Hvalid. unfold predict_parking_price.
  destruct (build_user_prompt repr data) as [prompt | e]; [simpl | reflexivity].
  f_equal. unfold handle, call_gemini, fence_replies.
  destruct (generate_content _) as [reply | e] eqn:E; [simpl | reflexivity].
  destruct (Hvalid _ _ E) as [m Hm].
  rewrite (parse_gemini_json_text repr loads (fenced reply)).
  rewrite (fenced_object_text reply (json_loads_object_text reply m Hm)).
  reflexivity.
Qed.

End Fencing.

Lemma fencing_does_not_change_response_witness :
  predict_parking_price sample_tariffs sample_repr json_loads
    (fence_replies bare_provider) sample_fromisoformat sample_request
  = predict_parking_price sample_tariffs sample_repr json_loads
      bare_provider sample_fromisoformat sample_request.
Proof.
  apply fencing_does_not_change_response.
  intros prompt reply [= <-]. eexists. vm_compute. reflexivity.
Defined.

Lemma sample_extracts :
  extracts sample_repr json_loads sample_provider sample_fromisoformat sample_request
    (JObj (list_to_map
             [("start_datetime", JStr "2024-01-05T10:00:00");
              ("end_datetime", JStr "2024-01-05T11:30:00");
              ("area", JStr "downtown"); ("state", JStr "CA");
              ("vehicle_type", JStr "car")]))
    (naive 2024 1 5 10 0) (naive 2024 1 5 11 30)
    (JStr "CA") (JStr "downtown") (JStr "car").
Proof.
  econstructor.
  - vm_compute; reflexivity.
  - vm_compute; reflexivity.
  - vm_compute; reflexivity.
  - vm_compute; reflexivity.
  - vm_compute; reflexivity.
  - vm_compute; reflexivity.
  - vm_compute; reflexivity.
  - vm_compute; reflexivity.
  - vm_compute; reflexivity.
  - vm_compute; reflexivity.
  - vm_compute; reflexivity.
  - vm_compute; reflexivity.
  - vm_compute; reflexivity.
  - vm_compute; reflexivity.
Qed.

(** The sample request is answered, with status 200. *)
Lemma handler_answers_or_prompt_fails_witness :
  ∃ r, predict_parking_price sample_tariffs sample_repr json_loads sample_provider
         sample_fromisoformat sample_request = Ok r
       ∧ (status r = 200 ∨ status r = 400 ∨ status r = 500).
Proof.
  destruct (handler_answers_or_prompt_fails sample_tariffs sample_repr json_loads
              sample_provider sample_fromisoformat sample_request) as [H _].
  eapply H. vm_compute. reflexivity.
Defined.

(** The provider reports an invalid area. *)
Lemma invalid_request_is_400_witness :
  predict_parking_price sample_tariffs sample_repr json_loads invalid_provider
    sample_fromisoformat sample_request
  = Ok {| status := 400; body := JObj {[ "error" := JArr [JStr "invalid area"] ]} |}.
Proof.
  eapply (invalid_request_is_400 sample_tariffs sample_repr json_loads invalid_provider
            sample_fromisoformat sample_request).
  - vm_compute; reflexivity.
  - vm_compute; reflexivity.
  - vm_compute; reflexivity.
  - vm_compute; reflexivity.
  - vm_compute; reflexivity.
  - vm_compute; reflexivity.
  - vm_compute; reflexivity.
Defined.

(** 90 minutes at 2 an hour, billed by the hour: 4. *)
Lemma priced_request_is_200_witness :
  ∃ r, predict_parking_price sample_tariffs sample_repr json_loads sample_provider
         sample_fromisoformat sample_request = Ok r
       ∧ status r = 200
       ∧ lookup_key (body r) "tariff" = Some (JObj downtown_car).
Proof.
  eexists. split.
  - apply (priced_request_is_200 sample_tariffs sample_repr json_loads sample_provider
             sample_fromisoformat sample_request _ _ _ _ _ _ (JObj downtown_car)
             (NFloat (400 # 100)) sample_extracts).
    + reflexivity.
    + reflexivity.
    + vm_compute. reflexivity.
  - split; reflexivity.
Defined.

(** The rule stored for CA / downtown / car is the number 5. *)
Lemma rule_not_mapping_is_500_witness :
  ∃ msg, predict_parking_price number_rule_tariffs sample_repr json_loads sample_provider
           sample_fromisoformat sample_request
         = Ok {| status := 500; body := JObj {[ "error" := JStr msg ]} |}.
Proof.
  apply (rule_not_mapping_is_500 number_rule_tariffs sample_repr json_loads sample_provider
           sample_fromisoformat sample_request _ _ _ _ _ _ (int 5) sample_extracts);
    reflexivity.
Defined.

(** The sample request holds the seven fields. *)
Lemma request_needs_all_fields_witness :
  ∃ prompt, build_user_prompt sample_repr sample_request = Ok prompt.
Proof.
  apply (request_needs_all_fields sample_tariffs sample_repr json_loads sample_provider
           sample_fromisoformat).
  intros k Hk. unfold required_fields in Hk.
  repeat (apply elem_of_cons in Hk as [-> | Hk]; [by eexists |]).
  by apply elem_of_nil in Hk.
Defined.

(** ** The response extractor *)

Lemma lstrip_app_nonspace (a : string) (c : ascii) (x : string) :
  isspace c = false → lstrip (a ++ String c x) = lstrip a ++ String c x.
Proof.
  intros Hc. induction a as [| y a IH]; simpl.
  - by rewrite Hc.
  - by destruct (isspace y).
Qed.

Lemma rstrip_app_nonspace (a : string) (c : ascii) (w : string) :
  isspace c = false → rstrip (a ++ String c w) = a ++ String c (rstrip w).
Proof.
  intros Hc. induction a as [| y a IH]; simpl.
  - destruct (rstrip w); [by rewrite Hc | done].
  - rewrite IH. by destruct a.
Qed.

Lemma find_lstrip (s : string) (c : ascii) : find s c = -1 → find (lstrip s) c = -1.
Proof.
  induction s as [| y s IH]; simpl; [done |].
  destruct (Ascii.eqb y c) eqn:E; [done |].
  destruct (Z.eqb_spec (find s c) (-1)) as [H | H]; [| pose proof (find_range s c); lia].
  intros _. destruct (isspace y); [by apply IH |]. simpl. by rewrite E, H.
Qed.

Lemma rfind_cons_absent (y : ascii) (s : string) (c : ascii) :
  rfind (String y s) c = -1 ↔ Ascii.eqb y c = false ∧ rfind s c = -1.
Proof.
  simpl. pose proof (rfind_range s c).
  destruct (Z.eqb_spec (rfind s c) (-1)) as [H' | H'].
  - destruct (Ascii.eqb y c); split; try done; try lia; by intros [? _].
  - split; [lia | by intros [_ ?]].
Qed.

Lemma rfind_rstrip (s : string) (c : ascii) : rfind s c = -1 → rfind (rstrip s) c = -1.
Proof.
  induction s as [| y s IH]; [done |].
  intros [Hy Hs]%rfind_cons_absent. specialize (IH Hs).
  change (rstrip (String y s))
    with (match rstrip s with
          | EmptyString => if isspace y then EmptyString else String y EmptyString
          | r => String y r
          end).
  destruct (rstrip s) as [| z r].
  - destruct (isspace y); [done |]. by apply rfind_cons_absent.
  - by apply rfind_cons_absent.
Qed.

Lemma find_app_inv (a b : string) (c : ascii) :
  find (a ++ b) c = -1 → find b c = -1.
Proof.
  induction a as [| y a IH]; simpl; [done |].
  destruct (Ascii.eqb y c); [done |].
  destruct (Z.eqb_spec (find (a ++ b) c) (-1)) as [H | H]; [by auto |].
  pose proof (find_range (a ++ b) c). lia.
Qed.

(** A marker found at the head of a text lies before the first character
    the marker does not hold. *)
Lemma prefix_before (p a : string) (c : ascii) (r : string) :
  String.prefix p (a ++ String c r) = true → find p c = -1 → ∃ a', a = p ++ a'.
Proof.
  revert a. induction p as [| x p IH]; intros a; simpl; [by exists a |].
  destruct (Ascii.eqb x c) eqn:E; [done |].
  destruct (Z.eqb_spec (find p c) (-1)) as [Hp | Hp]; [| pose proof (find_range p c); lia].
  destruct a as [| y a]; simpl.
  - destruct (ascii_dec x c) as [-> | _]; [| done]. by rewrite Ascii.eqb_refl in E.
  - destruct (ascii_dec x y) as [-> | _]; [| done].
    intros H _. destruct (IH a H Hp) as [a' ->]. by exists a'.
Qed.

(** Removing a marker at the head of [a ++ c..] removes it from [a]. *)
Lemma drop_marker (p a : string) (c : ascii) (r : string) (n : Z) :
  n = Z.of_nat (String.length p) → find p c = -1 → find a c = -1 →
  ∃ a', (if startswith (a ++ String c r) p then slice_from (a ++ String c r) n
         else a ++ String c r) = a' ++ String c r
        ∧ find a' c = -1.
Proof.
  intros -> Hp Ha. unfold startswith.
  destruct (String.prefix p (a ++ String c r)) eqn:E; [| by exists a].
  destruct (prefix_before p a c r E Hp) as [a' ->].
  exists a'. split.
  - rewrite app_str_assoc. apply slice_from_app.
  - by apply find_app_inv in Ha.
Qed.

Lemma without_fence_before (a : string) (r : string) :
  find a "{" = -1 →
  ∃ a', without_fence (a ++ String "{" r) = a' ++ String "{" r ∧ find a' "{" = -1.
Proof.
  intros Ha. unfold without_fence.
  destruct (drop_marker "```json" a "{" r 7 eq_refl eq_refl Ha) as (a1 & -> & Ha1).
  apply (drop_marker "```" a1 "{" r 3 eq_refl eq_refl Ha1).
Qed.

(** Steps 4 and 5 on an object between a text without an opening brace
    and a text without a closing one. *)
Lemma brace_span_between (a body rest : string) :
  find a "{" = -1 → rfind rest "}" = -1 →
  brace_span (a ++ ("{" ++ body ++ "}") ++ rest) = "{" ++ body ++ "}".
Proof.
  intros Ha Hrest. unfold brace_span at 1.
  rewrite (find_app_absent a _ _ Ha).
  assert (find (("{" ++ body ++ "}") ++ rest) "{" = 0) as -> by reflexivity.
  change (0 =? -1) with false. cbv iota. rewrite Z.add_0_r, slice_from_app.
  destruct (Z.eqb_spec (Z.of_nat (String.length a)) (-1)) as [E | _]; [lia |].
  apply (brace_span_core body _ Hrest).
Qed.

Lemma json_text_between (pre body post : string) :
  find pre "{" = -1 → rfind post "}" = -1 →
  json_text (pre ++ "{" ++ body ++ "}" ++ post) = "{" ++ body ++ "}".
Proof.
  intros Hpre Hpost. unfold json_text, strip.
  change (pre ++ "{" ++ body ++ "}" ++ post)
    with (pre ++ String "{" (body ++ String "}" post)).
  rewrite (lstrip_app_nonspace pre "{" _ eq_refl).
  assert (lstrip pre ++ String "{" (body ++ String "}" post)
          = (lstrip pre ++ String "{" body) ++ String "}" post) as ->.
  { rewrite app_str_assoc. reflexivity. }
  rewrite (rstrip_app_nonspace _ "}" post eq_refl).
  assert ((lstrip pre ++ String "{" body) ++ String "}" (rstrip post)
          = lstrip pre ++ String "{" (body ++ String "}" (rstrip post))) as ->.
  { rewrite app_str_assoc. reflexivity. }
  destruct (without_fence_before (lstrip pre) (body ++ String "}" (rstrip post))
              (find_lstrip pre "{" Hpre)) as (a' & -> & Ha').
  assert (a' ++ String "{" (body ++ String "}" (rstrip post))
          = a' ++ ("{" ++ body ++ "}") ++ rstrip post) as ->.
  { rewrite !app_str_assoc. reflexivity. }
  apply brace_span_between; [done | by apply rfind_rstrip].
Qed.

Section Prose.

Variable repr : json → string.
Variable loads : string → result json.

(** X17.  Text before the first opening brace and text after the last
    closing brace are ignored, fences and prose alike: the extractor
    returns what it returns on the brace-delimited part alone. *)
Theorem text_around_object_is_ignored (pre body post : string) :
  find pre "{" = -1 → rfind post "}" = -1 →
  parse_gemini_json repr loads (pre ++ "{" ++ body ++ "}" ++ post)
  = parse_gemini_json repr loads ("{" ++ body ++ "}").
Proof.
  intros Hpre Hpost. rewrite !parse_gemini_json_text.
  rewrite (json_text_between pre body post Hpre Hpost).
  by rewrite (json_text_bare "" body "" eq_refl eq_refl
              : json_text ("{" ++ body ++ "}") = "{" ++ body ++ "}").
Qed.

End Prose.

Lemma text_around_object_is_ignored_witness :
  parse_gemini_json sample_repr json_loads
    ("Here is the result: {" ++ q "ok" ++ ": true} I hope this helps.")
  = parse_gemini_json sample_repr json_loads ("{" ++ q "ok" ++ ": true}").
Proof.
  apply (text_around_object_is_ignored sample_repr json_loads
           "Here is the result: " (q "ok" ++ ": true") " I hope this helps.");
    reflexivity.
Defined.

Lemma substring_of_refl (s : string) : substring_of s s.
Proof. exists "", "". by rewrite app_str_nil_r. Qed.

Lemma substring_of_trans (a b c : string) :
  substring_of a b → substring_of b c → substring_of a c.
Proof.
  intros (x & y & ->) (x' & y' & ->). exists (x' ++ x), (y ++ y').
  by rewrite !app_str_assoc.
Qed.

Lemma substring_of_suffix (a s : string) : substring_of s (a ++ s).
Proof. exists a, "". by rewrite app_str_nil_r. Qed.

Lemma substring_of_prefix (s b : string) : substring_of s (s ++ b).
Proof. by exists "", b. Qed.

Lemma lstrip_substring (s : string) : substring_of (lstrip s) s.
Proof.
  induction s as [| y s IH]; simpl; [apply substring_of_refl |].
  destruct (isspace y); [| apply substring_of_refl].
  eapply substring_of_trans; [exact IH |]. apply (substring_of_suffix (String y "")).
Qed.

Lemma rstrip_prefix (s : string) : ∃ b, s = rstrip s ++ b.
Proof.
  induction s as [| y s [b IH]]; [by exists "" |].
  change (rstrip (String y s))
    with (match rstrip s with
          | EmptyString => if isspace y then EmptyString else String y EmptyString
          | r => String y r
          end).
  destruct (rstrip s) as [| z r].
  - simpl in IH. subst b. destruct (isspace y); [by exists (String y s) | by exists s].
  - exists b. simpl. by rewrite IH at 1.
Qed.

Lemma rstrip_substring (s : string) : substring_of (rstrip s) s.
Proof.
  destruct (rstrip_prefix s) as [b H]. by exists "", b.
Qed.

Lemma take_drop_str (n : nat) (s : string) : s = take_str n s ++ drop_str n s.
Proof.
  revert s. induction n as [| n IH]; intros [| y s]; simpl; try done.
  by rewrite <- IH.
Qed.

Lemma slice_from_substring (s : string) (i : Z) : substring_of (slice_from s i) s.
Proof.
  unfold slice_from. exists (take_str (slice_bound s i) s), "".
  rewrite app_str_nil_r. apply take_drop_str.
Qed.

Lemma slice_to_substring (s : string) (i : Z) : substring_of (slice_to s i) s.
Proof.
  unfold slice_to. exists "", (drop_str (slice_bound s i) s).
  apply take_drop_str.
Qed.

Lemma without_fence_substring (s : string) : substring_of (without_fence s) s.
Proof.
  unfold without_fence.
  destruct (startswith s "```json").
  - destruct (startswith (slice_from s 7) "```").
    + eapply substring_of_trans; apply slice_from_substring.
    + apply slice_from_substring.
  - destruct (startswith s "```");
      [apply slice_from_substring | apply substring_of_refl].
Qed.

Lemma brace_span_substring (s : string) : substring_of (brace_span s) s.
Proof.
  unfold brace_span.
  assert (substring_of
            (if negb (find s "{" =? -1) then slice_from s (find s "{") else s) s) as H1.
  { destruct (negb _); [apply slice_from_substring | apply substring_of_refl]. }
  eapply substring_of_trans; [| exact H1].
  destruct (negb (rfind _ _ =? -1)); [apply slice_to_substring | apply substring_of_refl].
Qed.

(** X18.  The extractor only cuts: the text it hands to the parser is a
    contiguous part of the provider's text, with nothing inserted,
    replaced or reordered. *)
Theorem extracted_text_is_substring (raw : string) : substring_of (json_text raw) raw.
Proof.
  unfold json_text, strip.
  eapply substring_of_trans; [apply brace_span_substring |].
  eapply substring_of_trans; [apply without_fence_substring |].
  eapply substring_of_trans; [apply rstrip_substring | apply lstrip_substring].
Qed.

(** ** Startup *)

(** X19.  The module starts, with the parsed file as its tariff table,
    exactly when the API key is set and not empty, the tariff file exists
    and its text parses; a key that is missing or empty fails first,
    whatever the file. *)
Theorem startup_needs_key_and_file (loads : string → result json)
    (GEMINI_API tariffs_file : option string) :
  (∀ tariffs, startup loads GEMINI_API tariffs_file = Ok tariffs
              ↔ ∃ key text, GEMINI_API = Some key ∧ key ≠ ""
                            ∧ tariffs_file = Some text ∧ loads text = Ok tariffs)
  ∧ (GEMINI_API = None ∨ GEMINI_API = Some "" →
     startup loads GEMINI_API tariffs_file
     = Raise (ValueError "GEMINI_API not found in .env"))
  ∧ (truthy (from_option JStr JNull GEMINI_API) = true → tariffs_file = None →
     startup loads GEMINI_API tariffs_file
     = Raise (OtherError "FileNotFoundError"
                "tariffs.json not found. Please create it with tariff data.")).
Proof.
  unfold startup. split; [| split].
  - intros tariffs. destruct GEMINI_API as [key |]; simpl.
    + destruct (String.eqb_spec key "") as [-> | Hne]; simpl.
      * split; [done | by intros (? & ? & [= <-] & ? & _)].
      * destruct tariffs_file as [text |].
        -- split; [intros H; by exists key, text |].
           by intros (? & ? & _ & _ & [= <-] & ?).
        -- split; [done | by intros (? & ? & _ & _ & ? & _)].
    + split; [done | by intros (? & ? & ? & _)].
  - by intros [-> | ->].
  - intros -> ->. reflexivity.
Qed.

(** A key but no file. *)
Lemma startup_needs_key_and_file_witness :
  startup json_loads (Some "secret") None
  = Raise (OtherError "FileNotFoundError"
             "tariffs.json not found. Please create it with tariff data.")
  ∧ startup json_loads (Some "") (Some "{}")
    = Raise (ValueError "GEMINI_API not found in .env").
Proof.
  destruct (startup_needs_key_and_file json_loads (Some "secret") None) as (_ & _ & H1).
  destruct (startup_needs_key_and_file json_loads (Some "") (Some "{}")) as (_ & H2 & _).
  split; [by apply H1 | apply H2; by right].
Defined.

(** ** Errors of the provider and of the parser, and the rounding rule *)

Section Failures.

Variable TARIFFS : json.
Variable repr : json → string.
Variable loads : string → result json.
Variable generate_content : string → result string.
Variable fromisoformat : string → result datetime.

(** X20.  A failure of the provider is answered with 500 and the
    provider's message; a reply the parser rejects is answered with 500
    and "Failed to parse Gemini JSON: " followed by the parser's
    diagnostic.  The tariff table is not consulted in either case. *)
Theorem provider_and_parser_failures_are_500 (data : json) (prompt : string) (e : exn) :
  build_user_prompt repr data = Ok prompt →
  (call_gemini generate_content system_prompt prompt = Raise e →
   predict_parking_price TARIFFS repr loads generate_content fromisoformat data
   = Ok {| status := 500; body := JObj {[ "error" := JStr (py_str repr e) ]} |})
  ∧ (∀ reply, call_gemini generate_content system_prompt prompt = Ok reply →
       loads (json_text reply) = Raise e →
       predict_parking_price TARIFFS repr loads generate_content fromisoformat data
       = Ok {| status := 500;
               body := JObj {[ "error" := JStr ("Failed to parse Gemini JSON: "
                                                ++ py_str repr e) ]} |}).
Proof.
  intros Hb. unfold predict_parking_price. rewrite Hb. simpl.
  unfold handle. split.
  - intros ->. reflexivity.
  - intros reply -> Hl. simpl. rewrite parse_gemini_json_text, Hl. reflexivity.
Qed.

End Failures.

(** The provider answers in prose. *)
Lemma provider_and_parser_failures_are_500_witness :
  predict_parking_price sample_tariffs sample_repr json_loads prose_provider
    sample_fromisoformat sample_request
  = Ok {| status := 500;
          body := JObj {[ "error" := JStr ("Failed to parse Gemini JSON: "
                                           ++ "Expecting value: line 1 column 1 (char 0)") ]} |}.
Proof.
  destruct (provider_and_parser_failures_are_500 sample_tariffs sample_repr json_loads
              prose_provider sample_fromisoformat sample_request sample_prompt
              (ValueError "Expecting value: line 1 column 1 (char 0)")) as [_ H].
  - vm_compute. reflexivity.
  - apply (H "Sorry, I cannot help with that."); vm_compute; reflexivity.
Defined.



